(** * claude-gate: the models endpoint and the confirmation prompt

    A shallow embedding of
      - [internal/proxy/models_handler.go]  (package [proxy])
      - [internal/ui/components/confirm.go] (package [components])
    followed by the properties of these two files.

    Go values of static type [interface{}] are embedded as the inductive
    [value]; [map[string]interface{}] is a [gmap string value];
    [http.Header] is a [gmap string (list string)].  The handler's effects
    (reading the wall clock, asking the token provider, calling the
    upstream) are threaded through a small state monad [M] that counts clock
    readings and records a trace of the outside calls. *)

From Stdlib Require Import ZArith String Ascii List DecimalString.
From stdpp Require Import gmap strings list fin_maps.

Local Open Scope Z_scope.

Set Warnings "-register-all".

(* ===================================================================== *)
(** * Package [proxy] *)
(* ===================================================================== *)

Module Proxy.

(** ** Go data *)

(** A Go [error], kept as its message. *)
Definition error := string.

(** A Go result pair [(T, error)]. *)
Inductive result (A : Type) : Type :=
| Ok (a : A)
| Err (e : error).
Arguments Ok {A} a.
Arguments Err {A} e.

(** A value of static type [interface{}], by dynamic type.  [VSlice None]
    is the nil [[]interface{}], [VSlice (Some l)] a non-nil one; a
    [float64] is kept as its 64 bits. *)
Inductive value : Type :=
| VNil
| VBool (b : bool)
| VInt (n : Z)
| VFloat64 (bits : Z)
| VString (s : string)
| VSlice (xs : option (list value))
| VMap (m : gmap string value).

(** The elements a [range] over the slice visits. *)
Definition slice_elems (xs : option (list value)) : list value :=
  match xs with
  | Some l => l
  | None => []
  end.

(** Go's [append(s, x)]: the result is never nil. *)
Definition append (s : option (list value)) (x : value) : option (list value) :=
  Some (slice_elems s ++ [x]).

(** ** [net/http] headers *)

Definition is_upper (c : ascii) : bool :=
  (65 <=? nat_of_ascii c)%nat && (nat_of_ascii c <=? 90)%nat.
Definition is_lower (c : ascii) : bool :=
  (97 <=? nat_of_ascii c)%nat && (nat_of_ascii c <=? 122)%nat.
Definition is_digit (c : ascii) : bool :=
  (48 <=? nat_of_ascii c)%nat && (nat_of_ascii c <=? 57)%nat.
Definition to_upper (c : ascii) : ascii :=
  if is_lower c then ascii_of_nat (nat_of_ascii c - 32) else c.
Definition to_lower (c : ascii) : ascii :=
  if is_upper c then ascii_of_nat (nat_of_ascii c + 32) else c.

(** The bytes [net/textproto] accepts in a header field name. *)
Definition validHeaderFieldByte (c : ascii) : bool :=
  is_upper c || is_lower c || is_digit c ||
  existsb (Ascii.eqb c) (list_ascii_of_string "!#$%&'*+-.^_`|~").

Fixpoint canonical_from (upper : bool) (s : string) : string :=
  match s with
  | EmptyString => EmptyString
  | String c rest =>
      String (if upper then to_upper c else to_lower c)
             (canonical_from (Ascii.eqb c "-"%char) rest)
  end.

(** [textproto.CanonicalMIMEHeaderKey]: the first letter and every letter
    after a hyphen in upper case, the others in lower case; a name with a
    byte that is not allowed in a field name is returned as it is. *)
Definition CanonicalMIMEHeaderKey (s : string) : string :=
  if forallb validHeaderFieldByte (list_ascii_of_string s)
  then canonical_from true s
  else s.

(** [http.Header.Get]: the first value under the canonical key, or [""]. *)
Definition Header_Get (h : gmap string (list string)) (key : string) : string :=
  match h !! CanonicalMIMEHeaderKey key with
  | Some (v :: _) => v
  | _ => ""
  end.

(** [http.Header.Set]: the canonical key now holds the single value. *)
Definition Header_Set (h : gmap string (list string)) (key val : string)
  : gmap string (list string) :=
  <[CanonicalMIMEHeaderKey key := [val]]> h.

(** ** Requests, responses, the response writer *)

Record Request : Type := mkRequest {
  Method : string;
  URL : string;
  Header : gmap string (list string);
}.

(** What [httpClient.Do] hands back: the status code and what
    [io.ReadAll(resp.Body)] will give. *)
Record Response : Type := mkResponse {
  StatusCode : Z;
  Body : result string;
}.

Definition StatusOK : Z := 200.
Definition StatusNoContent : Z := 204.

(** One write to the response body.  [EncodedJSON v] is the text
    [json.NewEncoder(w).Encode(v)] writes: the JSON encoding of [v] and a
    newline. *)
Inductive Chunk : Type :=
| EncodedJSON (v : value).

(** An [http.ResponseWriter]: the header map the handler edits, the status
    line once it is written, with the headers as they were at that moment
    (later edits of the map are not sent), and the body written so far. *)
Record ResponseWriter : Type := mkResponseWriter {
  rw_header : gmap string (list string);
  rw_sent : option (Z * gmap string (list string));
  rw_body : list Chunk;
}.

Definition NewResponseWriter : ResponseWriter :=
  {| rw_header := ∅; rw_sent := None; rw_body := [] |}.

(** [w.Header().Set(key, val)] *)
Definition rw_Set (w : ResponseWriter) (key val : string) : ResponseWriter :=
  {| rw_header := Header_Set (rw_header w) key val;
     rw_sent := rw_sent w;
     rw_body := rw_body w |}.

(** [w.WriteHeader(code)]: only the first call counts. *)
Definition WriteHeader (w : ResponseWriter) (code : Z) : ResponseWriter :=
  match rw_sent w with
  | Some _ => w
  | None =>
      {| rw_header := rw_header w;
         rw_sent := Some (code, rw_header w);
         rw_body := rw_body w |}
  end.

(** [w.Write(chunk)]: a write before [WriteHeader] sends status 200 first. *)
Definition Write (w : ResponseWriter) (c : Chunk) : ResponseWriter :=
  let w1 := WriteHeader w StatusOK in
  {| rw_header := rw_header w1;
     rw_sent := rw_sent w1;
     rw_body := rw_body w1 ++ [c] |}.

Definition sent_status (w : ResponseWriter) : option Z :=
  fst <$> rw_sent w.

(** The value of a header on the wire, [None] while nothing is sent. *)
Definition sent_header (w : ResponseWriter) (key : string) : option string :=
  (fun p => Header_Get (snd p) key) <$> rw_sent w.

(** ** The handler and its collaborators *)

(** The [TokenProvider] interface: the outcome of [GetAccessToken()]. *)
Record TokenProvider : Type := mkTokenProvider {
  GetAccessToken : result string;
}.

(** [*http.Client]: the outcome of [Do(req)]. *)
Record Client : Type := mkClient {
  Do : Request -> result Response;
}.

Record ModelsHandler : Type := mkModelsHandler {
  tokenProvider : TokenProvider;
  upstreamURL : string;
  httpClient : Client;
}.

(** ** Effects *)

(** The calls that leave the process. *)
Inductive Event : Type :=
| EvGetAccessToken
| EvDo (req : Request).

(** [clockReads]: how many times the clock was read; [trace]: the outside
    calls so far, oldest first. *)
Record State : Type := mkState {
  clockReads : nat;
  trace : list Event;
}.

(** A computation reads the clock ([clock k] is what the [k]-th call of
    [time.Now().Unix()] returns) and threads the state. *)
Definition M (A : Type) : Type := (nat -> Z) -> State -> A * State.

Definition ret {A} (a : A) : M A := fun _ st => (a, st).

Definition bind {A B} (c : M A) (k : A -> M B) : M B :=
  fun clock st => let '(a, st1) := c clock st in k a clock st1.

Notation "x <- c ;; k" := (bind c (fun x => k))
  (at level 100, c at next level, right associativity).

(** [int(time.Now().Unix())].  The release targets are amd64 and arm64,
    where [int] has 64 bits as [int64] has: the conversion changes
    nothing. *)
Definition unixNow : M Z :=
  fun clock st =>
    (clock (clockReads st),
     {| clockReads := S (clockReads st); trace := trace st |}).

Definition emit (e : Event) : M unit :=
  fun _ st =>
    (tt, {| clockReads := clockReads st; trace := trace st ++ [e] |}).

(** [h.tokenProvider.GetAccessToken()] *)
Definition call_GetAccessToken (h : ModelsHandler) : M (result string) :=
  _ <- emit EvGetAccessToken ;;
  ret (GetAccessToken (tokenProvider h)).

(** [h.httpClient.Do(req)] *)
Definition call_Do (h : ModelsHandler) (req : Request) : M (result Response) :=
  _ <- emit (EvDo req) ;;
  ret (Do (httpClient h) req).

(** ** [setCORSHeadersStandalone] *)

Definition setCORSHeadersStandalone (w : ResponseWriter) (r : Request)
  : ResponseWriter :=
  let origin := Header_Get (Header r) "Origin" in
  let origin := if String.eqb origin "" then "*" else origin in
  let w := rw_Set w "Access-Control-Allow-Origin" origin in
  let w := rw_Set w "Access-Control-Allow-Methods" "GET, POST, PUT, DELETE, OPTIONS" in
  let w := rw_Set w "Access-Control-Allow-Headers" "Content-Type, Authorization, X-Requested-With" in
  let w := rw_Set w "Access-Control-Allow-Credentials" "true" in
  let w := rw_Set w "Access-Control-Max-Age" "3600" in
  w.

(** ** [getOAuthModels] *)

(** The static list.  The nine [time.Now()] calls of the literal are made
    in the order they are written, one per permission entry. *)
Definition getOAuthModels (h : ModelsHandler) : M (gmap string value) :=
  t1 <- unixNow ;;
  t2 <- unixNow ;;
  t3 <- unixNow ;;
  t4 <- unixNow ;;
  t5 <- unixNow ;;
  t6 <- unixNow ;;
  t7 <- unixNow ;;
  t8 <- unixNow ;;
  t9 <- unixNow ;;
  ret ({[
    "object" := VString "list";
    "data" := VSlice (Some [
      (* Claude 4 Series (Latest) *)
      VMap {[
        "id" := VString "claude-opus-4-20250514";
        "object" := VString "model";
        "created" := VInt 1747353600; (* 2025-05-14 *)
        "owned_by" := VString "anthropic";
        "permission" := VSlice (Some [
          VMap {[
            "allow_create_engine" := VBool false;
            "allow_fine_tuning" := VBool false;
            "allow_logprobs" := VBool false;
            "allow_sampling" := VBool true;
            "allow_search_indices" := VBool false;
            "allow_view" := VBool true;
            "created" := VInt t1;
            "group" := VNil;
            "id" := VString "modelperm-claude-opus-4-20250514";
            "is_blocking" := VBool false;
            "object" := VString "model_permission";
            "organization" := VString "*"
          ]}
        ])
      ]};
      VMap {[
        "id" := VString "claude-sonnet-4-20250514";
        "object" := VString "model";
        "created" := VInt 1747353600; (* 2025-05-14 *)
        "owned_by" := VString "anthropic";
        "permission" := VSlice (Some [
          VMap {[
            "allow_create_engine" := VBool false;
            "allow_fine_tuning" := VBool false;
            "allow_logprobs" := VBool false;
            "allow_sampling" := VBool true;
            "allow_search_indices" := VBool false;
            "allow_view" := VBool true;
            "created" := VInt t2;
            "group" := VNil;
            "id" := VString "modelperm-claude-sonnet-4-20250514";
            "is_blocking" := VBool false;
            "object" := VString "model_permission";
            "organization" := VString "*"
          ]}
        ])
      ]};
      (* Claude 3.7 Series *)
      VMap {[
        "id" := VString "claude-3-7-sonnet-20250219";
        "object" := VString "model";
        "created" := VInt 1740009600; (* 2025-02-19 *)
        "owned_by" := VString "anthropic";
        "permission" := VSlice (Some [
          VMap {[
            "allow_create_engine" := VBool false;
            "allow_fine_tuning" := VBool false;
            "allow_logprobs" := VBool false;
            "allow_sampling" := VBool true;
            "allow_search_indices" := VBool false;
            "allow_view" := VBool true;
            "created" := VInt t3;
            "group" := VNil;
            "id" := VString "modelperm-claude-3-7-sonnet-20250219";
            "is_blocking" := VBool false;
            "object" := VString "model_permission";
            "organization" := VString "*"
          ]}
        ])
      ]};
      (* Claude 3.5 Sonnet (Latest) *)
      VMap {[
        "id" := VString "claude-3-5-sonnet-20241022";
        "object" := VString "model";
        "created" := VInt 1729555200; (* 2024-10-22 *)
        "owned_by" := VString "anthropic";
        "permission" := VSlice (Some [
          VMap {[
            "allow_create_engine" := VBool false;
            "allow_fine_tuning" := VBool false;
            "allow_logprobs" := VBool false;
            "allow_sampling" := VBool true;
            "allow_search_indices" := VBool false;
            "allow_view" := VBool true;
            "created" := VInt t4;
            "group" := VNil;
            "id" := VString "modelperm-claude-3-5-sonnet-20241022";
            "is_blocking" := VBool false;
            "object" := VString "model_permission";
            "organization" := VString "*"
          ]}
        ])
      ]};
      (* Claude 3.5 Sonnet (Previous) *)
      VMap {[
        "id" := VString "claude-3-5-sonnet-20240620";
        "object" := VString "model";
        "created" := VInt 1718841600; (* 2024-06-20 *)
        "owned_by" := VString "anthropic";
        "permission" := VSlice (Some [
          VMap {[
            "allow_create_engine" := VBool false;
            "allow_fine_tuning" := VBool false;
            "allow_logprobs" := VBool false;
            "allow_sampling" := VBool true;
            "allow_search_indices" := VBool false;
            "allow_view" := VBool true;
            "created" := VInt t5;
            "group" := VNil;
            "id" := VString "modelperm-claude-3-5-sonnet-20240620";
            "is_blocking" := VBool false;
            "object" := VString "model_permission";
            "organization" := VString "*"
          ]}
        ])
      ]};
      (* Claude 3.5 Haiku (Latest) *)
      VMap {[
        "id" := VString "claude-3-5-haiku-20241022";
        "object" := VString "model";
        "created" := VInt 1729555200; (* 2024-10-22 *)
        "owned_by" := VString "anthropic";
        "permission" := VSlice (Some [
          VMap {[
            "allow_create_engine" := VBool false;
            "allow_fine_tuning" := VBool false;
            "allow_logprobs" := VBool false;
            "allow_sampling" := VBool true;
            "allow_search_indices" := VBool false;
            "allow_view" := VBool true;
            "created" := VInt t6;
            "group" := VNil;
            "id" := VString "modelperm-claude-3-5-haiku-20241022";
            "is_blocking" := VBool false;
            "object" := VString "model_permission";
            "organization" := VString "*"
          ]}
        ])
      ]};
      (* Claude 3 Opus *)
      VMap {[
        "id" := VString "claude-3-opus-20240229";
        "object" := VString "model";
        "created" := VInt 1709251200; (* 2024-02-29 *)
        "owned_by" := VString "anthropic";
        "permission" := VSlice (Some [
          VMap {[
            "allow_create_engine" := VBool false;
            "allow_fine_tuning" := VBool false;
            "allow_logprobs" := VBool false;
            "allow_sampling" := VBool true;
            "allow_search_indices" := VBool false;
            "allow_view" := VBool true;
            "created" := VInt t7;
            "group" := VNil;
            "id" := VString "modelperm-claude-3-opus-20240229";
            "is_blocking" := VBool false;
            "object" := VString "model_permission";
            "organization" := VString "*"
          ]}
        ])
      ]};
      (* Claude 3 Sonnet *)
      VMap {[
        "id" := VString "claude-3-sonnet-20240229";
        "object" := VString "model";
        "created" := VInt 1709251200; (* 2024-02-29 *)
        "owned_by" := VString "anthropic";
        "permission" := VSlice (Some [
          VMap {[
            "allow_create_engine" := VBool false;
            "allow_fine_tuning" := VBool false;
            "allow_logprobs" := VBool false;
            "allow_sampling" := VBool true;
            "allow_search_indices" := VBool false;
            "allow_view" := VBool true;
            "created" := VInt t8;
            "group" := VNil;
            "id" := VString "modelperm-claude-3-sonnet-20240229";
            "is_blocking" := VBool false;
            "object" := VString "model_permission";
            "organization" := VString "*"
          ]}
        ])
      ]};
      (* Claude 3 Haiku *)
      VMap {[
        "id" := VString "claude-3-haiku-20240307";
        "object" := VString "model";
        "created" := VInt 1709769600; (* 2024-03-07 *)
        "owned_by" := VString "anthropic";
        "permission" := VSlice (Some [
          VMap {[
            "allow_create_engine" := VBool false;
            "allow_fine_tuning" := VBool false;
            "allow_logprobs" := VBool false;
            "allow_sampling" := VBool true;
            "allow_search_indices" := VBool false;
            "allow_view" := VBool true;
            "created" := VInt t9;
            "group" := VNil;
            "id" := VString "modelperm-claude-3-haiku-20240307";
            "is_blocking" := VBool false;
            "object" := VString "model_permission";
            "organization" := VString "*"
          ]}
        ])
      ]}
    ])
  ]} : gmap string value).

(** ** [ServeHTTP] *)

Definition ServeHTTP (h : ModelsHandler) (w : ResponseWriter) (r : Request)
  : M ResponseWriter :=
  (* Handle CORS *)
  if String.eqb (Method r) "OPTIONS" then
    let w := setCORSHeadersStandalone w r in
    let w := WriteHeader w StatusNoContent in
    ret w
  else
    let w := setCORSHeadersStandalone w r in
    models <- getOAuthModels h ;;
    let w := rw_Set w "Content-Type" "application/json" in
    ret (Write w (EncodedJSON (VMap models))).

(** ** [convertAnthropicModelsToOpenAI] *)

(** The value the loop body binds to [openAIModel], as a function of the
    model id and of the two clock readings it is built from. *)
Definition openAIModel (modelID : string) (t1 t2 : Z) : value :=
  VMap {[
    "id" := VString modelID;
    "object" := VString "model";
    "created" := VInt t1;
    "owned_by" := VString "anthropic";
    "permission" := VSlice (Some [
      VMap {[
        "allow_create_engine" := VBool false;
        "allow_fine_tuning" := VBool false;
        "allow_logprobs" := VBool false;
        "allow_sampling" := VBool true;
        "allow_search_indices" := VBool false;
        "allow_view" := VBool true;
        "created" := VInt t2;
        "group" := VNil;
        "id" := VString ("modelperm-" +:+ modelID);
        "is_blocking" := VBool false;
        "object" := VString "model_permission";
        "organization" := VString "*"
      ]}
    ])
  ]}.

(** The body of the [for _, item := range data] loop, with [models] the
    slice built so far. *)
Fixpoint convert_loop (data : list value) (models : option (list value))
  : M (option (list value)) :=
  match data with
  | [] => ret models
  | item :: data' =>
      match item with
      | VMap model =>
          match model !! "id" with
          | Some (VString modelID) =>
              t1 <- unixNow ;;
              t2 <- unixNow ;;
              convert_loop data' (append models (openAIModel modelID t1 t2))
          | _ => convert_loop data' models
          end
      | _ => convert_loop data' models
      end
  end.

Definition convertAnthropicModelsToOpenAI (h : ModelsHandler)
    (anthropicResponse : gmap string value) : M (gmap string value) :=
  let openAIModels : gmap string value := {[
    "object" := VString "list";
    "data" := VSlice (Some [])
  ]} in
  (* Extract models from Anthropic response *)
  match anthropicResponse !! "data" with
  | Some (VSlice data) =>
      models <- convert_loop (slice_elems data) None ;;
      ret (<["data" := VSlice models]> openAIModels)
  | _ => ret openAIModels
  end.

(** ** [fetchModelsFromAnthropic] *)

(** [fmt.Sprintf("%d", n)] *)
Definition itoa (n : Z) : string := NilZero.string_of_int (Z.to_int n).

Section Fetch.

(** Two functions of Go's library the function calls: whether
    [http.NewRequest] rejects the URL (with which error), and what
    [json.Unmarshal] makes of the body. *)
Variable url_error : string -> option error.
Variable json_Unmarshal : string -> result (gmap string value).

(** [http.NewRequest("GET", url, nil)]: a request without headers. *)
Definition NewRequest (method url : string) : result Request :=
  match url_error url with
  | Some e => Err e
  | None => Ok {| Method := method; URL := url; Header := ∅ |}
  end.

(** [req.Header.Set(key, val)] *)
Definition req_Set (req : Request) (key val : string) : Request :=
  {| Method := Method req; URL := URL req;
     Header := Header_Set (Header req) key val |}.

Definition fetchModelsFromAnthropic (h : ModelsHandler)
  : M (result (gmap string value)) :=
  (* Get access token *)
  tok <- call_GetAccessToken h ;;
  match tok with
  | Err err => ret (Err ("failed to get access token: " +:+ err))
  | Ok accessToken =>
      (* Create request to Anthropic's models endpoint *)
      match NewRequest "GET" (upstreamURL h +:+ "/v1/models") with
      | Err err => ret (Err ("failed to create request: " +:+ err))
      | Ok req =>
          (* Set headers *)
          let req := req_Set req "Authorization" ("Bearer " +:+ accessToken) in
          let req := req_Set req "anthropic-version" "2023-06-01" in
          let req := req_Set req "anthropic-beta" "oauth-2025-04-20" in
          let req := req_Set req "Content-Type" "application/json" in
          (* Make request *)
          sent <- call_Do h req ;;
          match sent with
          | Err err => ret (Err ("failed to make request: " +:+ err))
          | Ok resp =>
              if negb (StatusCode resp =? StatusOK) then
                ret (Err ("API returned status " +:+ itoa (StatusCode resp)))
              else
                (* Read response *)
                match Body resp with
                | Err err => ret (Err ("failed to read response: " +:+ err))
                | Ok body =>
                    (* Parse Anthropic response *)
                    match json_Unmarshal body with
                    | Err err => ret (Err ("failed to parse response: " +:+ err))
                    | Ok anthropicResponse =>
                        (* Convert to OpenAI format *)
                        converted <- convertAnthropicModelsToOpenAI h anthropicResponse ;;
                        ret (Ok converted)
                    end
                end
          end
      end
  end.

End Fetch.

(** Running a computation from a state. *)
Definition run {A} (c : M A) (clock : nat -> Z) (st : State) : A * State :=
  c clock st.

(** The outside calls a computation adds to the trace. *)
Definition new_events {A} (c : M A) (clock : nat -> Z) (st : State) : list Event :=
  drop (length (trace st)) (trace (snd (c clock st))).

End Proxy.

(* ===================================================================== *)
(** * Package [components] *)
(* ===================================================================== *)

Module Components.

(** ** What the file uses of bubbletea *)

(** A key press is known to the prompt only through [msg.String()], the
    name of the key: ["y"], ["enter"], ["ctrl+c"], ... *)
Class KeyPress (K : Type) : Type := Key_String : K -> string.

(** A [tea.Msg] is any value: a [tea.KeyMsg], or a message of another
    type (window size, mouse, ...), told apart here by a number. *)
Inductive Msg (K : Type) : Type :=
| KeyMsg (key : K)
| OtherMsg (kind : nat).
Arguments KeyMsg {K} key.
Arguments OtherMsg {K} kind.

(** A [tea.Cmd]: the prompt only ever returns [tea.Quit], or [nil]
    ([None]). *)
Inductive Cmd : Type :=
| Quit.

(** A [switch] case with several values. *)
Definition one_of (s : string) (cases : list string) : bool :=
  existsb (String.eqb s) cases.

(** ** [ConfirmModel] *)

Record ConfirmModel : Type := mkConfirmModel {
  question : string;
  answer : bool;
  answered : bool;
}.

Definition NewConfirm (question : string) : ConfirmModel :=
  {| question := question; answer := false; answered := false |}.

Definition ConfirmModel_Init (m : ConfirmModel) : option Cmd := None.

(** [m.answer = a; m.answered = true] *)
Definition settle (m : ConfirmModel) (a : bool) : ConfirmModel :=
  {| question := question m; answer := a; answered := true |}.

Definition ConfirmModel_Update {K} `{KeyPress K} (m : ConfirmModel) (msg : Msg K)
  : ConfirmModel * option Cmd :=
  match msg with
  | KeyMsg key =>
      let s := Key_String key in
      if one_of s ["y"; "Y"] then (settle m true, Some Quit)
      else if one_of s ["n"; "N"] then (settle m false, Some Quit)
      else if one_of s ["ctrl+c"; "esc"] then (settle m false, Some Quit)
      else (m, None)
  | _ => (m, None)
  end.

(** ** [ConfirmDefaultModel] *)

(** [embedded] is the embedded [ConfirmModel]. *)
Record ConfirmDefaultModel : Type := mkConfirmDefaultModel {
  embedded : ConfirmModel;
  defaultYes : bool;
}.

(** The receiver is a pointer: the model is updated in place and the same
    pointer is returned; here the updated model is the result. *)
Definition ConfirmDefaultModel_Update {K} `{KeyPress K}
    (m : ConfirmDefaultModel) (msg : Msg K) : ConfirmDefaultModel * option Cmd :=
  let set a := {| embedded := settle (embedded m) a; defaultYes := defaultYes m |} in
  match msg with
  | KeyMsg key =>
      let s := Key_String key in
      if one_of s ["y"; "Y"] then (set true, Some Quit)
      else if one_of s ["n"; "N"] then (set false, Some Quit)
      else if one_of s ["enter"] then (set (defaultYes m), Some Quit)
      else if one_of s ["ctrl+c"; "esc"] then (set false, Some Quit)
      else (m, None)
  | _ => (m, None)
  end.

(** ** [confirmNonInteractive] *)

(** What [fmt.Scanln(&response)] did: it filled [response] and returned no
    error, or it returned an error (end of input, an empty line, more than
    one word), leaving in [response] whatever it had read. *)
Inductive Scan : Type :=
| Scanned (response : string)
| ScanFailed (response : string) (err : string).

(** The result and the text printed on standard output. *)
Definition confirmNonInteractive (question : string) (defaultYes : bool)
    (stdin : Scan) : bool * string :=
  let suffix := "(y/N)" in
  let suffix := if defaultYes then "(Y/n)" else suffix in
  let printed := question +:+ " " +:+ suffix +:+ " " in
  match stdin with
  | ScanFailed _ _ =>
      (* On error or empty input, return the default *)
      (defaultYes, printed)
  | Scanned response =>
      if one_of response ["y"; "Y"; "yes"; "Yes"; "YES"] then (true, printed)
      else if one_of response ["n"; "N"; "no"; "No"; "NO"] then (false, printed)
      else
        (* Empty response or anything else, return default *)
        (defaultYes, printed)
  end.

(** The key names the two [Update] methods have a case for. *)
Definition handled_keys : list string := ["y"; "Y"; "n"; "N"; "ctrl+c"; "esc"].
Definition handled_keys_default : list string :=
  ["y"; "Y"; "n"; "N"; "enter"; "ctrl+c"; "esc"].

(** A [Msg] that is a key press with one of the given names. *)
Definition is_key {K} `{KeyPress K} (names : list string) (msg : Msg K) : bool :=
  match msg with
  | KeyMsg key => one_of (Key_String key) names
  | OtherMsg _ => false
  end.

(** ** [View] *)

(** What the file uses of the [styles] package: the two [Render] methods,
    from text to styled text. *)
Class Styles : Type := {
  InfoStyle_Render : string -> string;
  HelpStyle_Render : string -> string;
}.

(** The string ["\n"]. *)
Definition newline : string := String (ascii_of_nat 10) EmptyString.

Definition ConfirmModel_View `{Styles} (m : ConfirmModel) : string :=
  if answered m then
    let shown := "No" in
    let shown := if answer m then "Yes" else shown in
    question m +:+ " " +:+ InfoStyle_Render shown +:+ newline
  else
    question m +:+ " " +:+ HelpStyle_Render "(y/N)" +:+ " ".

(** [ConfirmDefaultModel] has no [View] and no [Init] of its own: the ones
    of the embedded [ConfirmModel] are promoted. *)
Definition ConfirmDefaultModel_View `{Styles} (m : ConfirmDefaultModel) : string :=
  ConfirmModel_View (embedded m).

Definition ConfirmDefaultModel_Init (m : ConfirmDefaultModel) : option Cmd :=
  ConfirmModel_Init (embedded m).

(** ** [Confirm] and [ConfirmWithDefault] *)

(** Where a prompt runs: what [utils.IsInteractive()] says, what
    [fmt.Scanln] reads if it is called, and what
    [tea.NewProgram(model).Run()] returns, the final model or an error. *)
Record Terminal (Model : Type) : Type := mkTerminal {
  IsInteractive : bool;
  Scanln : Scan;
  Run : Model -> Proxy.result Model;
}.
Arguments IsInteractive {Model} t.
Arguments Scanln {Model} t.
Arguments Run {Model} t model.

(** The answer [Confirm] returns. *)
Definition Confirm (t : Terminal ConfirmModel) (question : string) : bool :=
  (* Check if we have a TTY available *)
  if negb (IsInteractive t) then
    fst (confirmNonInteractive question false (Scanln t))
  else
    let model := NewConfirm question in
    match Run t model with
    | Proxy.Err _ => false
    | Proxy.Ok finalModel => answer finalModel
    end.

(** The model [ConfirmWithDefault] starts the program with. *)
Definition default_prompt `{Styles} (question : string) (defaultYes : bool)
  : ConfirmDefaultModel :=
  let suffix := "(y/N)" in
  let suffix := if defaultYes then "(Y/n)" else suffix in
  let fullQuestion := question +:+ " " +:+ HelpStyle_Render suffix in
  {| embedded := {| question := fullQuestion; answer := defaultYes;
                    answered := false |};
     defaultYes := defaultYes |}.

(** The answer [ConfirmWithDefault] returns. *)
Definition ConfirmWithDefault `{Styles} (t : Terminal ConfirmDefaultModel)
    (question : string) (defaultYes : bool) : bool :=
  (* Check if we have a TTY available *)
  if negb (IsInteractive t) then
    fst (confirmNonInteractive question defaultYes (Scanln t))
  else
    let model := default_prompt question defaultYes in
    match Run t model with
    | Proxy.Err _ => false
    | Proxy.Ok finalModel => answer (embedded finalModel)
    end.

(** Keys given by their names, for running the prompt on examples. *)
#[export] Instance named_key : KeyPress string := fun s => s.

End Components.

(* ===================================================================== *)
(** * Reading values and responses *)
(* ===================================================================== *)

Import Proxy Components.

(** [field v k]: the entry [k] of [v] when [v] is a JSON object. *)
Definition field (v : value) (k : string) : option value :=
  match v with
  | VMap m => m !! k
  | _ => None
  end.

(** The elements of the ["data"] array of a listing. *)
Definition data_of (listing : gmap string value) : list value :=
  match listing !! "data" with
  | Some (VSlice xs) => slice_elems xs
  | _ => []
  end.

(** The ["id"] of a model entry. *)
Definition entry_id (e : value) : option string :=
  match field e "id" with
  | Some (VString s) => Some s
  | _ => None
  end.

(** The top-level ["created"] of a model entry. *)
Definition entry_created (e : value) : option Z :=
  match field e "created" with
  | Some (VInt n) => Some n
  | _ => None
  end.

(** The single permission object of a model entry. *)
Definition entry_permission (e : value) : option value :=
  match field e "permission" with
  | Some (VSlice (Some [p])) => Some p
  | _ => None
  end.

(** The ["created"] of the permission object of a model entry. *)
Definition permission_created (e : value) : option Z :=
  match entry_permission e with
  | Some p =>
      match field p "created" with
      | Some (VInt n) => Some n
      | _ => None
      end
  | None => None
  end.

(** The ["id"] of the permission object of a model entry. *)
Definition permission_id (e : value) : option string :=
  match entry_permission e with
  | Some p =>
      match field p "id" with
      | Some (VString s) => Some s
      | _ => None
      end
  | None => None
  end.

(** The ids of the elements of the input's ["data"] array that are objects
    with a string ["id"], in input order; none when ["data"] is missing or
    not an array. *)
Definition model_ids (anthropicResponse : gmap string value) : list string :=
  omap entry_id (data_of anthropicResponse).

(** The listing a response carries: the JSON object written last. *)
Definition served_listing (w : ResponseWriter) : option (gmap string value) :=
  match last (rw_body w) with
  | Some (EncodedJSON (VMap listing)) => Some listing
  | _ => None
  end.

(** The models of the static list: id and top-level ["created"]. *)
Definition static_models : list (string * Z) :=
  [ ("claude-opus-4-20250514", 1747353600);
    ("claude-sonnet-4-20250514", 1747353600);
    ("claude-3-7-sonnet-20250219", 1740009600);
    ("claude-3-5-sonnet-20241022", 1729555200);
    ("claude-3-5-sonnet-20240620", 1718841600);
    ("claude-3-5-haiku-20241022", 1729555200);
    ("claude-3-opus-20240229", 1709251200);
    ("claude-3-sonnet-20240229", 1709251200);
    ("claude-3-haiku-20240307", 1709769600) ].

(** The [n] clock readings from the [k]-th on. *)
Definition readings (clock : nat -> Z) (k n : nat) : list Z :=
  map clock (seq k n).

(** The header list the interface section of the specification gives for
    [Access-Control-Allow-Headers]. *)
Definition documented_allow_headers : string :=
  "Content-Type, Authorization, X-Requested-With, anthropic-version, anthropic-beta".

(** The three headers the specification requires on an upstream request,
    and nothing else. *)
Definition required_upstream_headers (accessToken : string)
  : gmap string (list string) :=
  Header_Set
    (Header_Set
       (Header_Set ∅ "Authorization" ("Bearer " +:+ accessToken))
       "anthropic-version" "2023-06-01")
    "anthropic-beta" "oauth-2025-04-20".

(** The headers [fetchModelsFromAnthropic] puts on the request it builds,
    under the names [Set] stores them. *)
Definition upstream_headers (accessToken : string) : gmap string (list string) :=
  {[ "Authorization" := ["Bearer " +:+ accessToken];
     "Anthropic-Version" := ["2023-06-01"];
     "Anthropic-Beta" := ["oauth-2025-04-20"];
     "Content-Type" := ["application/json"] ]}.

(** The request [fetchModelsFromAnthropic] builds. *)
Definition upstream_request (h : ModelsHandler) (accessToken : string) : Request :=
  {| Method := "GET";
     URL := upstreamURL h +:+ "/v1/models";
     Header := upstream_headers accessToken |}.

(** An upstream answer to convert: two models, between them a string, an
    object without ["id"] and an object whose ["id"] is a number. *)
Definition example_answer : gmap string value :=
  {[ "data" := VSlice (Some [
       VMap {[ "id" := VString "claude-a"; "type" := VString "model" ]};
       VString "claude-x";
       VMap {[ "type" := VString "model" ]};
       VMap {[ "id" := VFloat64 0 ]};
       VMap {[ "id" := VString "claude-b" ]}
     ]);
     "has_more" := VBool false ]}.

(** The model after the program has passed [msgs] to [Update], one after
    the other. *)
Definition feed {K : Type} `{KeyPress K} (m : ConfirmModel) (msgs : list (Msg K))
  : ConfirmModel :=
  fold_left (fun m msg => fst (ConfirmModel_Update m msg)) msgs m.

Definition feed_default {K : Type} `{KeyPress K} (m : ConfirmDefaultModel)
    (msgs : list (Msg K)) : ConfirmDefaultModel :=
  fold_left (fun m msg => fst (ConfirmDefaultModel_Update m msg)) msgs m.

(** Styles that put the text between marks, to tell them apart. *)
Definition example_styles : Styles :=
  {| InfoStyle_Render := fun s => "<" +:+ s +:+ ">";
     HelpStyle_Render := fun s => "[" +:+ s +:+ "]" |}.

(** A terminal with a TTY whose program passes [msgs] to [Update]. *)
Definition typing (msgs : list (Msg string)) : Terminal ConfirmModel :=
  {| IsInteractive := true;
     Scanln := ScanFailed EmptyString "EOF";
     Run := fun m => Proxy.Ok (feed m msgs) |}.

Definition typing_default (msgs : list (Msg string))
  : Terminal ConfirmDefaultModel :=
  {| IsInteractive := true;
     Scanln := ScanFailed EmptyString "EOF";
     Run := fun m => Proxy.Ok (feed_default m msgs) |}.

(** A terminal with a TTY whose program fails to start. *)
Definition broken_tty : Terminal ConfirmDefaultModel :=
  {| IsInteractive := true;
     Scanln := ScanFailed EmptyString "EOF";
     Run := fun _ => Proxy.Err "could not open a new TTY" |}.

(** No TTY: a pipe that holds the given line, or nothing. *)
Definition piped {Model : Type} (stdin : Scan) : Terminal Model :=
  {| IsInteractive := false;
     Scanln := stdin;
     Run := fun _ => Proxy.Err "not a terminal" |}.

(** The models the converter builds for [ids] when the clock has been read
    [k] times before: two readings each, in order. *)
Fixpoint stamped (clock : nat -> Z) (k : nat) (ids : list string) : list value :=
  match ids with
  | [] => []
  | id :: ids' =>
      openAIModel id (clock k) (clock (S k)) :: stamped clock (S (S k)) ids'
  end.

(** The map [convertAnthropicModelsToOpenAI] starts from. *)
Definition empty_listing : gmap string value :=
  {[ "object" := VString "list"; "data" := VSlice (Some []) ]}.

(** The names [setCORSHeadersStandalone] sets. *)
Definition cors_names : list string :=
  [ "Access-Control-Allow-Origin"; "Access-Control-Allow-Methods";
    "Access-Control-Allow-Headers"; "Access-Control-Allow-Credentials";
    "Access-Control-Max-Age" ].

(** A handler whose upstream answers every request with the given status
    and body. *)
Definition answering_handler (code : Z) (body : string) : ModelsHandler :=
  {| tokenProvider := {| GetAccessToken := Ok "tok" |};
     upstreamURL := "https://api.anthropic.com";
     httpClient := {| Do := fun _ => Ok {| StatusCode := code; Body := Ok body |} |} |}.

(** The number of days from 1970-01-01 to the day [d] of month [m] of
    year [y] of the Gregorian calendar (years counted from March, in
    groups of 400; [/] on [Z] rounds down). *)
Definition days_from_civil (y m d : Z) : Z :=
  let y := if m <=? 2 then y - 1 else y in
  let era := y / 400 in
  let yoe := y - era * 400 in
  let mp := if m <=? 2 then m + 9 else m - 3 in
  let doy := (153 * mp + 2) / 5 + d - 1 in
  let doe := yoe * 365 + yoe / 4 - yoe / 100 + doy in
  era * 146097 + doe - 719468.

(** The Unix time of midnight UTC at the start of a date. *)
Definition unix_midnight (date : Z * Z * Z) : Z :=
  let '(y, m, d) := date in 86400 * days_from_civil y m d.

(** The date the source writes, as a comment, beside the ["created"] of
    each model of the static list, in the order of the list; it is also
    the date at the end of the model's id. *)
Definition commented_dates : list (Z * Z * Z) :=
  [ (2025, 5, 14); (2025, 5, 14); (2025, 2, 19); (2024, 10, 22);
    (2024, 6, 20); (2024, 10, 22); (2024, 2, 29); (2024, 2, 29);
    (2024, 3, 7) ].

(** How many whole days a ["created"] value lies after the start of the
    date written beside it. *)
Definition days_after_comment (model : string * Z) (date : Z * Z * Z) : Z :=
  (snd model - unix_midnight date) / 86400.

(** Inputs the examples run on. *)
Definition example_handler : ModelsHandler :=
  {| tokenProvider := {| GetAccessToken := Ok "tok" |};
     upstreamURL := "https://api.anthropic.com";
     httpClient := {| Do := fun _ => Err "connection refused" |} |}.

Definition failing_handler : ModelsHandler :=
  {| tokenProvider := {| GetAccessToken := Err "no token" |};
     upstreamURL := "";
     httpClient := {| Do := fun _ => Err "connection refused" |} |}.

Definition example_get : Request :=
  {| Method := "GET"; URL := "/v1/models";
     Header := {[ "Origin" := ["https://app.example"] ]} |}.

Definition example_options : Request :=
  {| Method := "OPTIONS"; URL := "/v1/models"; Header := ∅ |}.

Definition example_clock : nat -> Z := fun k => 1761800000 + Z.of_nat k.

Definition initial_state : State := {| clockReads := 0; trace := [] |}.

(* ===================================================================== *)
(** * Properties of package [components] *)
(* ===================================================================== *)

Lemma one_of_In (s : string) (cases : list string) :
  one_of s cases = true <-> In s cases.
Proof.
  unfold one_of. rewrite existsb_exists. split.
  - intros (x & Hx & Heq). apply String.eqb_eq in Heq. now subst.
  - intros Hin. exists s. split; [assumption | apply String.eqb_refl].
Qed.

Lemma one_of_not_In (s : string) (cases : list string) :
  one_of s cases = false <-> ~ In s cases.
Proof.
  rewrite <- one_of_In. destruct (one_of s cases); split; intros; congruence.
Qed.

Lemma one_of_app_false (s : string) (l1 l2 : list string) :
  one_of s (l1 ++ l2) = false -> one_of s l1 = false /\ one_of s l2 = false.
Proof.
  unfold one_of. rewrite existsb_app. apply orb_false_elim.
Qed.

(** A key named ["ctrl+c"] or ["esc"] reaches neither the yes nor the no
    case, nor the ["enter"] case. *)
Lemma cancel_key_cases (s : string) :
  s = "ctrl+c" \/ s = "esc" ->
  one_of s ["y"; "Y"] = false /\ one_of s ["n"; "N"] = false /\
  one_of s ["enter"] = false /\ one_of s ["ctrl+c"; "esc"] = true.
Proof.
  intros [-> | ->]; repeat split; reflexivity.
Qed.

Section Prompt.

Context {K : Type} `{KeyPress K}.

Lemma ConfirmModel_Update_cancel (m : ConfirmModel) (key : K) :
  Key_String key = "ctrl+c" \/ Key_String key = "esc" ->
  ConfirmModel_Update m (KeyMsg key) = (settle m false, Some Quit).
Proof.
  intros Hk. apply cancel_key_cases in Hk as (Hy & Hn & _ & Hc).
  unfold ConfirmModel_Update. now rewrite Hy, Hn, Hc.
Qed.

Lemma ConfirmDefaultModel_Update_cancel (m : ConfirmDefaultModel) (key : K) :
  Key_String key = "ctrl+c" \/ Key_String key = "esc" ->
  ConfirmDefaultModel_Update m (KeyMsg key) =
    ({| embedded := settle (embedded m) false; defaultYes := defaultYes m |},
     Some Quit).
Proof.
  intros Hk. apply cancel_key_cases in Hk as (Hy & Hn & He & Hc).
  unfold ConfirmDefaultModel_Update. now rewrite Hy, Hn, He, Hc.
Qed.

Lemma ConfirmModel_Update_ignore (m : ConfirmModel) (msg : Msg K) :
  is_key handled_keys msg = false ->
  ConfirmModel_Update m msg = (m, None).
Proof.
  destruct msg as [key | kind]; [| reflexivity].
  cbn [is_key]. unfold handled_keys. intros Hno.
  apply (one_of_app_false _ ["y"; "Y"] ["n"; "N"; "ctrl+c"; "esc"]) in Hno
    as [Hy Hno].
  apply (one_of_app_false _ ["n"; "N"] ["ctrl+c"; "esc"]) in Hno as [Hn Hc].
  unfold ConfirmModel_Update. now rewrite Hy, Hn, Hc.
Qed.

Lemma ConfirmDefaultModel_Update_ignore (m : ConfirmDefaultModel) (msg : Msg K) :
  is_key handled_keys_default msg = false ->
  ConfirmDefaultModel_Update m msg = (m, None).
Proof.
  destruct msg as [key | kind]; [| reflexivity].
  cbn [is_key]. unfold handled_keys_default. intros Hno.
  apply (one_of_app_false _ ["y"; "Y"] ["n"; "N"; "enter"; "ctrl+c"; "esc"])
    in Hno as [Hy Hno].
  apply (one_of_app_false _ ["n"; "N"] ["enter"; "ctrl+c"; "esc"]) in Hno
    as [Hn Hno].
  apply (one_of_app_false _ ["enter"] ["ctrl+c"; "esc"]) in Hno as [He Hc].
  unfold ConfirmDefaultModel_Update. now rewrite Hy, Hn, He, Hc.
Qed.

End Prompt.

(** C9. For [ConfirmModel.Update] and for [ConfirmDefaultModel.Update]: a
    key message named ["ctrl+c"] or ["esc"] gives a model with
    [answer = false] and [answered = true], whatever the model was before
    (so also when the default is yes and the answer so far is yes); and a
    message that is not one of the key messages the method has a case for
    gives back the model as it was, with a nil command. *)
Theorem Update_cancel_is_no_and_others_ignored
    {K : Type} `{KeyPress K}
    (m : ConfirmModel) (d : ConfirmDefaultModel) (key : K) (msg : Msg K) :
  (Key_String key = "ctrl+c" \/ Key_String key = "esc" ->
     answer (fst (ConfirmModel_Update m (KeyMsg key))) = false /\
     answered (fst (ConfirmModel_Update m (KeyMsg key))) = true /\
     answer (embedded (fst (ConfirmDefaultModel_Update d (KeyMsg key)))) = false /\
     answered (embedded (fst (ConfirmDefaultModel_Update d (KeyMsg key)))) = true) /\
  (is_key handled_keys msg = false ->
     ConfirmModel_Update m msg = (m, None)) /\
  (is_key handled_keys_default msg = false ->
     ConfirmDefaultModel_Update d msg = (d, None)).
Proof.
  split; [| split].
  - intros Hk.
    rewrite (ConfirmModel_Update_cancel m key Hk).
    rewrite (ConfirmDefaultModel_Update_cancel d key Hk).
    repeat split.
  - apply ConfirmModel_Update_ignore.
  - apply ConfirmDefaultModel_Update_ignore.
Qed.

(** The cancellation of a prompt whose default and answer so far are yes,
    and a window message and an unbound key that change nothing. *)
Lemma Update_cancel_is_no_and_others_ignored_witness :
  let d := {| embedded := {| question := "Proceed?"; answer := true;
                             answered := false |};
              defaultYes := true |} in
  let m := {| question := "Proceed?"; answer := true; answered := false |} in
  (answer (fst (ConfirmModel_Update m (KeyMsg "esc"))) = false /\
   answered (fst (ConfirmModel_Update m (KeyMsg "esc"))) = true /\
   answer (embedded (fst (ConfirmDefaultModel_Update d (KeyMsg "esc")))) = false /\
   answered (embedded (fst (ConfirmDefaultModel_Update d (KeyMsg "esc")))) = true) /\
  ConfirmModel_Update m (KeyMsg "enter") = (m, None) /\
  ConfirmDefaultModel_Update d (@OtherMsg string 0) = (d, None).
Proof.
  intros d m.
  split; [| split].
  - apply (proj1 (Update_cancel_is_no_and_others_ignored m d "esc" (OtherMsg 0))).
    right. reflexivity.
  - apply (proj1 (proj2 (Update_cancel_is_no_and_others_ignored
                            m d "esc" (KeyMsg "enter")))).
    reflexivity.
  - apply (proj2 (proj2 (Update_cancel_is_no_and_others_ignored
                            m d "esc" (OtherMsg 0)))).
    reflexivity.
Defined.

(** C10. [confirmNonInteractive question defaultYes] returns [true] when
    the scanned line is one of y, Y, yes, Yes, YES; [false] when it is one
    of n, N, no, No, NO; and [defaultYes] for any other line and whenever
    the scan fails. *)
Theorem confirmNonInteractive_answer
    (question : string) (defaultYes : bool) (response err : string) :
  (In response ["y"; "Y"; "yes"; "Yes"; "YES"] ->
     fst (confirmNonInteractive question defaultYes (Scanned response)) = true) /\
  (In response ["n"; "N"; "no"; "No"; "NO"] ->
     fst (confirmNonInteractive question defaultYes (Scanned response)) = false) /\
  (~ In response ["y"; "Y"; "yes"; "Yes"; "YES"] ->
   ~ In response ["n"; "N"; "no"; "No"; "NO"] ->
     fst (confirmNonInteractive question defaultYes (Scanned response)) = defaultYes) /\
  fst (confirmNonInteractive question defaultYes (ScanFailed response err)) = defaultYes.
Proof.
  unfold confirmNonInteractive. repeat split.
  - intros Hy. apply one_of_In in Hy. now rewrite Hy.
  - intros Hn.
    assert (Hy : one_of response ["y"; "Y"; "yes"; "Yes"; "YES"] = false).
    { apply one_of_not_In. intros Hy. simpl in Hn, Hy.
      intuition (subst; discriminate). }
    apply one_of_In in Hn. now rewrite Hy, Hn.
  - intros Hy Hn. apply one_of_not_In in Hy, Hn. now rewrite Hy, Hn.
Qed.

(** ["yes"] against a default of no, ["NO"] against a default of yes, an
    unknown word and a failed scan. *)
Lemma confirmNonInteractive_answer_witness :
  fst (confirmNonInteractive "Proceed?" false (Scanned "yes")) = true /\
  fst (confirmNonInteractive "Proceed?" true (Scanned "NO")) = false /\
  fst (confirmNonInteractive "Proceed?" true (Scanned "maybe")) = true /\
  fst (confirmNonInteractive "Proceed?" false (ScanFailed "" "unexpected newline")) = false.
Proof.
  split; [| split; [| split]].
  - apply (proj1 (confirmNonInteractive_answer "Proceed?" false "yes" "")).
    simpl. tauto.
  - apply (proj1 (proj2 (confirmNonInteractive_answer "Proceed?" true "NO" ""))).
    simpl. tauto.
  - apply (proj1 (proj2 (proj2 (confirmNonInteractive_answer
                                  "Proceed?" true "maybe" ""))));
      simpl; intuition discriminate.
  - apply (proj2 (proj2 (proj2 (confirmNonInteractive_answer
                                  "Proceed?" false "" "unexpected newline")))).
Defined.

(* ===================================================================== *)
(** * Properties of package [proxy] *)
(* ===================================================================== *)

(** ** Headers *)

(** The names the handler uses are in canonical form already, but for the
    two lower-case upstream headers. *)
Lemma canonical_names :
  CanonicalMIMEHeaderKey "Origin" = "Origin" /\
  CanonicalMIMEHeaderKey "Access-Control-Allow-Origin" = "Access-Control-Allow-Origin" /\
  CanonicalMIMEHeaderKey "Access-Control-Allow-Methods" = "Access-Control-Allow-Methods" /\
  CanonicalMIMEHeaderKey "Access-Control-Allow-Headers" = "Access-Control-Allow-Headers" /\
  CanonicalMIMEHeaderKey "Access-Control-Allow-Credentials" = "Access-Control-Allow-Credentials" /\
  CanonicalMIMEHeaderKey "Access-Control-Max-Age" = "Access-Control-Max-Age" /\
  CanonicalMIMEHeaderKey "Content-Type" = "Content-Type" /\
  CanonicalMIMEHeaderKey "Authorization" = "Authorization" /\
  CanonicalMIMEHeaderKey "anthropic-version" = "Anthropic-Version" /\
  CanonicalMIMEHeaderKey "anthropic-beta" = "Anthropic-Beta".
Proof. repeat split; reflexivity. Qed.

Lemma Header_Get_Set_same (h : gmap string (list string)) (key val : string) :
  Header_Get (Header_Set h key val) key = val.
Proof.
  unfold Header_Get, Header_Set. now rewrite lookup_insert_eq.
Qed.

Lemma Header_Get_Set_other (h : gmap string (list string)) (key key' val : string) :
  CanonicalMIMEHeaderKey key <> CanonicalMIMEHeaderKey key' ->
  Header_Get (Header_Set h key val) key' = Header_Get h key'.
Proof.
  intros Hne. unfold Header_Get, Header_Set. now rewrite lookup_insert_ne.
Qed.

(** Reading one header back through a chain of [Set]s on other names. *)
Ltac read_header :=
  repeat first
    [ rewrite Header_Get_Set_same
    | rewrite Header_Get_Set_other by (vm_compute; discriminate) ].

(** The origin [setCORSHeadersStandalone] allows. *)
Lemma cors_allow_origin (w : ResponseWriter) (r : Request) :
  Header_Get (rw_header (setCORSHeadersStandalone w r)) "Access-Control-Allow-Origin"
  = if String.eqb (Header_Get (Header r) "Origin") "" then "*"
    else Header_Get (Header r) "Origin".
Proof.
  unfold setCORSHeadersStandalone, rw_Set; cbn [rw_header]. now read_header.
Qed.

Lemma cors_allow_methods (w : ResponseWriter) (r : Request) :
  Header_Get (rw_header (setCORSHeadersStandalone w r)) "Access-Control-Allow-Methods"
  = "GET, POST, PUT, DELETE, OPTIONS".
Proof.
  unfold setCORSHeadersStandalone, rw_Set; cbn [rw_header]. now read_header.
Qed.

Lemma cors_allow_headers (w : ResponseWriter) (r : Request) :
  Header_Get (rw_header (setCORSHeadersStandalone w r)) "Access-Control-Allow-Headers"
  = "Content-Type, Authorization, X-Requested-With".
Proof.
  unfold setCORSHeadersStandalone, rw_Set; cbn [rw_header]. now read_header.
Qed.

Lemma cors_allow_credentials (w : ResponseWriter) (r : Request) :
  Header_Get (rw_header (setCORSHeadersStandalone w r)) "Access-Control-Allow-Credentials"
  = "true".
Proof.
  unfold setCORSHeadersStandalone, rw_Set; cbn [rw_header]. now read_header.
Qed.

Lemma cors_max_age (w : ResponseWriter) (r : Request) :
  Header_Get (rw_header (setCORSHeadersStandalone w r)) "Access-Control-Max-Age"
  = "3600".
Proof.
  unfold setCORSHeadersStandalone, rw_Set; cbn [rw_header]. now read_header.
Qed.

(** [setCORSHeadersStandalone] writes neither status nor body. *)
Lemma cors_sent_body (w : ResponseWriter) (r : Request) :
  rw_sent (setCORSHeadersStandalone w r) = rw_sent w /\
  rw_body (setCORSHeadersStandalone w r) = rw_body w.
Proof. split; reflexivity. Qed.

(** ** The two paths of [ServeHTTP] *)

Lemma ServeHTTP_options (h : ModelsHandler) (w : ResponseWriter) (r : Request)
    (clock : nat -> Z) (st : State) :
  Method r = "OPTIONS" ->
  ServeHTTP h w r clock st
  = (WriteHeader (setCORSHeadersStandalone w r) StatusNoContent, st).
Proof.
  intros HM. unfold ServeHTTP. rewrite HM. reflexivity.
Qed.

Lemma ServeHTTP_listing (h : ModelsHandler) (w : ResponseWriter) (r : Request)
    (clock : nat -> Z) (st : State) :
  Method r <> "OPTIONS" ->
  ServeHTTP h w r clock st
  = (Write (rw_Set (setCORSHeadersStandalone w r) "Content-Type" "application/json")
           (EncodedJSON (VMap (fst (getOAuthModels h clock st)))),
     snd (getOAuthModels h clock st)).
Proof.
  intros HM. unfold ServeHTTP.
  destruct (String.eqb_spec (Method r) "OPTIONS") as [Heq | _]; [contradiction |].
  unfold bind at 1.
  destruct (getOAuthModels h clock st) as [models st1]. reflexivity.
Qed.

(** The first status line takes the headers as they are then. *)
Lemma WriteHeader_fresh (w : ResponseWriter) (code : Z) :
  rw_sent w = None ->
  rw_sent (WriteHeader w code) = Some (code, rw_header w) /\
  rw_body (WriteHeader w code) = rw_body w.
Proof.
  intros Hfresh. unfold WriteHeader. rewrite Hfresh. split; reflexivity.
Qed.

Lemma Write_fresh (w : ResponseWriter) (c : Chunk) :
  rw_sent w = None ->
  rw_sent (Write w c) = Some (StatusOK, rw_header w).
Proof.
  intros Hfresh. unfold Write. cbn [rw_sent].
  apply (WriteHeader_fresh w StatusOK Hfresh).
Qed.

Lemma Write_body (w : ResponseWriter) (c : Chunk) :
  rw_body (Write w c) = rw_body w ++ [c].
Proof.
  unfold Write, WriteHeader. cbn [rw_body].
  destruct (rw_sent w); reflexivity.
Qed.

(** What goes on the wire, on either path, when the handler is the first
    to write the status: the headers as [setCORSHeadersStandalone] left
    them, and [Content-Type] on the listing path. *)
Lemma ServeHTTP_sent_cors (h : ModelsHandler) (w : ResponseWriter) (r : Request)
    (clock : nat -> Z) (st : State) (key : string) :
  rw_sent w = None ->
  CanonicalMIMEHeaderKey "Content-Type" <> CanonicalMIMEHeaderKey key ->
  sent_header (fst (ServeHTTP h w r clock st)) key
  = Some (Header_Get (rw_header (setCORSHeadersStandalone w r)) key).
Proof.
  intros Hfresh Hkey.
  destruct (String.eqb_spec (Method r) "OPTIONS") as [HM | HM].
  - rewrite ServeHTTP_options by assumption. cbn [fst].
    unfold sent_header.
    rewrite (proj1 (WriteHeader_fresh _ StatusNoContent
                      (eq_trans (proj1 (cors_sent_body w r)) Hfresh))).
    reflexivity.
  - rewrite ServeHTTP_listing by assumption. cbn [fst].
    unfold sent_header.
    rewrite Write_fresh by exact (eq_trans (proj1 (cors_sent_body w r)) Hfresh).
    cbn [fmap option_fmap option_map snd rw_Set rw_header].
    now rewrite Header_Get_Set_other.
Qed.

(** ** CORS *)

(** C2, as the specification states it, fails on the listing request of
    the examples: the [Access-Control-Allow-Headers] value on the wire is
    not the five-name list. *)
Lemma allow_headers_differs_from_documented :
  sent_header
    (fst (ServeHTTP example_handler NewResponseWriter example_get
            example_clock initial_state))
    "Access-Control-Allow-Headers"
  <> Some documented_allow_headers.
Proof.
  rewrite ServeHTTP_sent_cors by (reflexivity || (vm_compute; discriminate)).
  rewrite cors_allow_headers. vm_compute. discriminate.
Qed.

(** C2, amended. On every response to which the models handler attaches
    CORS headers, [Access-Control-Allow-Headers] is exactly
    ["Content-Type, Authorization, X-Requested-With"]: in the header map
    [setCORSHeadersStandalone] leaves, and on the wire on both paths of
    [ServeHTTP]. *)
Theorem allow_headers_exact (h : ModelsHandler) (w : ResponseWriter)
    (r : Request) (clock : nat -> Z) (st : State) :
  Header_Get (rw_header (setCORSHeadersStandalone w r)) "Access-Control-Allow-Headers"
  = "Content-Type, Authorization, X-Requested-With" /\
  (rw_sent w = None ->
   sent_header (fst (ServeHTTP h w r clock st)) "Access-Control-Allow-Headers"
   = Some "Content-Type, Authorization, X-Requested-With").
Proof.
  split; [apply cors_allow_headers |].
  intros Hfresh.
  rewrite ServeHTTP_sent_cors by (assumption || (vm_compute; discriminate)).
  now rewrite cors_allow_headers.
Qed.

Lemma allow_headers_exact_witness :
  sent_header
    (fst (ServeHTTP example_handler NewResponseWriter example_options
            example_clock initial_state))
    "Access-Control-Allow-Headers"
  = Some "Content-Type, Authorization, X-Requested-With".
Proof.
  apply (proj2 (allow_headers_exact example_handler NewResponseWriter
                  example_options example_clock initial_state)).
  reflexivity.
Defined.

(** C3. For every request, on a response whose status the handler is the
    first to write: [Access-Control-Allow-Origin] is the request's [Origin]
    when that is a non-empty string and ["*"] when the request has no
    [Origin]; [Access-Control-Allow-Credentials] is ["true"] and
    [Access-Control-Max-Age] is ["3600"] in both cases. *)
Theorem cors_origin_credentials_max_age (h : ModelsHandler)
    (w : ResponseWriter) (r : Request) (clock : nat -> Z) (st : State) :
  rw_sent w = None ->
  let w' := fst (ServeHTTP h w r clock st) in
  (Header_Get (Header r) "Origin" <> "" ->
     sent_header w' "Access-Control-Allow-Origin"
     = Some (Header_Get (Header r) "Origin")) /\
  (Header r !! "Origin" = None ->
     sent_header w' "Access-Control-Allow-Origin" = Some "*") /\
  sent_header w' "Access-Control-Allow-Credentials" = Some "true" /\
  sent_header w' "Access-Control-Max-Age" = Some "3600".
Proof.
  intros Hfresh w'. subst w'.
  rewrite !ServeHTTP_sent_cors by (assumption || (vm_compute; discriminate)).
  rewrite cors_allow_origin, cors_allow_credentials, cors_max_age.
  repeat split.
  - intros Hne.
    destruct (String.eqb_spec (Header_Get (Header r) "Origin") "") as [He | _];
      [contradiction | reflexivity].
  - intros Habsent.
    assert (Hget : Header_Get (Header r) "Origin" = "").
    { unfold Header_Get.
      rewrite (proj1 canonical_names), Habsent. reflexivity. }
    now rewrite Hget.
Qed.

(** A request from [https://app.example], and one without [Origin]. *)
Lemma cors_origin_credentials_max_age_witness :
  sent_header
    (fst (ServeHTTP example_handler NewResponseWriter example_get
            example_clock initial_state))
    "Access-Control-Allow-Origin" = Some "https://app.example" /\
  sent_header
    (fst (ServeHTTP example_handler NewResponseWriter example_options
            example_clock initial_state))
    "Access-Control-Allow-Origin" = Some "*".
Proof.
  split.
  - apply (proj1 (cors_origin_credentials_max_age example_handler
                    NewResponseWriter example_get example_clock initial_state
                    eq_refl)).
    vm_compute. discriminate.
  - apply (proj1 (proj2 (cors_origin_credentials_max_age example_handler
                    NewResponseWriter example_options example_clock
                    initial_state eq_refl))).
    reflexivity.
Defined.

(** C4. For every request with method [OPTIONS], the handler answers 204
    with the five CORS headers, adds nothing to the body, and does not
    build the listing: the clock is not read and nothing outside is
    called. *)
Theorem options_no_content (h : ModelsHandler) (w : ResponseWriter)
    (r : Request) (clock : nat -> Z) (st : State) :
  Method r = "OPTIONS" ->
  rw_sent w = None ->
  let w' := fst (ServeHTTP h w r clock st) in
  sent_status w' = Some 204 /\
  rw_body w' = rw_body w /\
  snd (ServeHTTP h w r clock st) = st /\
  sent_header w' "Access-Control-Allow-Origin"
    = Some (Header_Get (rw_header (setCORSHeadersStandalone w r))
              "Access-Control-Allow-Origin") /\
  sent_header w' "Access-Control-Allow-Methods"
    = Some "GET, POST, PUT, DELETE, OPTIONS" /\
  sent_header w' "Access-Control-Allow-Headers"
    = Some "Content-Type, Authorization, X-Requested-With" /\
  sent_header w' "Access-Control-Allow-Credentials" = Some "true" /\
  sent_header w' "Access-Control-Max-Age" = Some "3600".
Proof.
  intros HM Hfresh w'. subst w'.
  rewrite !ServeHTTP_sent_cors by (assumption || (vm_compute; discriminate)).
  rewrite cors_allow_methods, cors_allow_headers, cors_allow_credentials,
    cors_max_age.
  rewrite ServeHTTP_options by assumption. cbn [fst snd].
  assert (Hcors : rw_sent (setCORSHeadersStandalone w r) = None)
    by exact (eq_trans (proj1 (cors_sent_body w r)) Hfresh).
  destruct (WriteHeader_fresh _ StatusNoContent Hcors) as [Hsent Hbody].
  unfold sent_status. rewrite Hsent, Hbody.
  repeat split.
Qed.

Lemma options_no_content_witness :
  let w' := fst (ServeHTTP example_handler NewResponseWriter example_options
                   example_clock initial_state) in
  sent_status w' = Some 204 /\ rw_body w' = [].
Proof.
  intros w'.
  destruct (options_no_content example_handler NewResponseWriter
              example_options example_clock initial_state eq_refl eq_refl)
    as (Hstatus & Hbody & _).
  split; [exact Hstatus | exact Hbody].
Defined.

(** ** The static listing *)

(** Building the listing reads the clock nine times and calls nothing
    outside. *)
Lemma getOAuthModels_state (h : ModelsHandler) (clock : nat -> Z) (st : State) :
  snd (getOAuthModels h clock st)
  = {| clockReads := 9 + clockReads st; trace := trace st |}.
Proof. reflexivity. Qed.

Lemma getOAuthModels_object (h : ModelsHandler) (clock : nat -> Z) (st : State) :
  fst (getOAuthModels h clock st) !! "object" = Some (VString "list").
Proof. vm_compute. reflexivity. Qed.

Lemma getOAuthModels_data (h : ModelsHandler) (clock : nat -> Z) (st : State) :
  fst (getOAuthModels h clock st) !! "data"
  = Some (VSlice (Some (data_of (fst (getOAuthModels h clock st))))).
Proof. vm_compute. reflexivity. Qed.

Lemma getOAuthModels_ids (h : ModelsHandler) (clock : nat -> Z) (st : State) :
  map entry_id (data_of (fst (getOAuthModels h clock st)))
  = map (fun p => Some (fst p)) static_models.
Proof. vm_compute. reflexivity. Qed.

Lemma getOAuthModels_created (h : ModelsHandler) (clock : nat -> Z) (st : State) :
  map entry_created (data_of (fst (getOAuthModels h clock st)))
  = map (fun p => Some (snd p)) static_models.
Proof. vm_compute. reflexivity. Qed.

Lemma getOAuthModels_permission_created (h : ModelsHandler) (clock : nat -> Z)
    (st : State) :
  map permission_created (data_of (fst (getOAuthModels h clock st)))
  = map Some (readings clock (clockReads st) 9).
Proof. vm_compute. reflexivity. Qed.

Lemma getOAuthModels_permission_ids (h : ModelsHandler) (clock : nat -> Z)
    (st : State) :
  map permission_id (data_of (fst (getOAuthModels h clock st)))
  = map (fun p => Some ("modelperm-" +:+ fst p)) static_models.
Proof. vm_compute. reflexivity. Qed.

Lemma getOAuthModels_objects (h : ModelsHandler) (clock : nat -> Z) (st : State) :
  map (fun e => field e "object") (data_of (fst (getOAuthModels h clock st)))
  = repeat (Some (VString "model")) 9.
Proof. vm_compute. reflexivity. Qed.

Lemma getOAuthModels_owners (h : ModelsHandler) (clock : nat -> Z) (st : State) :
  map (fun e => field e "owned_by") (data_of (fst (getOAuthModels h clock st)))
  = repeat (Some (VString "anthropic")) 9.
Proof. vm_compute. reflexivity. Qed.

(** A list whose image under [f] is [n] copies of [x]. *)
Lemma map_repeat_Forall {A B : Type} (f : A -> B) (x : B) (l : list A) (n : nat) :
  map f l = repeat x n -> Forall (fun a => f a = x) l.
Proof.
  revert n. induction l as [| a l IH]; intros n Hmap; [constructor |].
  destruct n as [| n]; [discriminate |].
  cbn in Hmap. injection Hmap as Ha Hl.
  constructor; [exact Ha | exact (IH n Hl)].
Qed.

Lemma served_listing_Write (w : ResponseWriter) (listing : gmap string value) :
  served_listing (Write w (EncodedJSON (VMap listing))) = Some listing.
Proof.
  unfold served_listing. rewrite Write_body, last_snoc. reflexivity.
Qed.

(** The listing does not depend on the handler's fields, nor on the trace:
    only on the clock and on how often it was read before. *)
Lemma getOAuthModels_depends_on_clock_only (h1 h2 : ModelsHandler)
    (clock : nat -> Z) (st1 st2 : State) :
  clockReads st1 = clockReads st2 ->
  fst (getOAuthModels h1 clock st1) = fst (getOAuthModels h2 clock st2).
Proof.
  destruct st1 as [n1 t1], st2 as [n2 t2]. cbn [clockReads].
  intros ->. reflexivity.
Qed.

Lemma new_events_unchanged {A : Type} (c : M A) (clock : nat -> Z) (st : State) :
  trace (snd (c clock st)) = trace st -> new_events c clock st = [].
Proof.
  intros Htrace. unfold new_events. rewrite Htrace. apply drop_all.
Qed.

Lemma new_events_added {A : Type} (c : M A) (clock : nat -> Z) (st : State)
    (evs : list Event) :
  trace (snd (c clock st)) = trace st ++ evs -> new_events c clock st = evs.
Proof.
  intros Htrace. unfold new_events. rewrite Htrace. apply drop_app_length.
Qed.

(** C1. For every GET request the handler answers 200 with
    [Content-Type: application/json] and writes one JSON document in list
    shape: its ["object"] is ["list"], its ["data"] is an array (of nine
    entries), and every entry has ["object"] equal to ["model"] and
    ["owned_by"] equal to ["anthropic"]. *)
Theorem models_list_shape (h : ModelsHandler) (w : ResponseWriter)
    (r : Request) (clock : nat -> Z) (st : State) :
  Method r = "GET" ->
  rw_sent w = None ->
  let w' := fst (ServeHTTP h w r clock st) in
  exists (listing : gmap string value) (data : list value),
    rw_body w' = rw_body w ++ [EncodedJSON (VMap listing)] /\
    sent_status w' = Some 200 /\
    sent_header w' "Content-Type" = Some "application/json" /\
    listing !! "object" = Some (VString "list") /\
    listing !! "data" = Some (VSlice (Some data)) /\
    length data = 9%nat /\
    Forall (fun e => field e "object" = Some (VString "model") /\
                     field e "owned_by" = Some (VString "anthropic")) data.
Proof.
  intros HM Hfresh w'. subst w'.
  assert (Hne : Method r <> "OPTIONS") by (rewrite HM; discriminate).
  rewrite ServeHTTP_listing by assumption. cbn [fst].
  exists (fst (getOAuthModels h clock st)),
         (data_of (fst (getOAuthModels h clock st))).
  assert (Hcors : rw_sent (rw_Set (setCORSHeadersStandalone w r)
                             "Content-Type" "application/json") = None)
    by exact (eq_trans (proj1 (cors_sent_body w r)) Hfresh).
  split; [rewrite Write_body; reflexivity |].
  unfold sent_status, sent_header. rewrite (Write_fresh _ _ Hcors).
  split; [reflexivity |].
  split.
  { cbn [fmap option_fmap option_map snd rw_Set rw_header].
    now rewrite Header_Get_Set_same. }
  split; [apply getOAuthModels_object |].
  split; [apply getOAuthModels_data |].
  split.
  { rewrite <- (length_map entry_id), getOAuthModels_ids. reflexivity. }
  apply Forall_and. split.
  - exact (map_repeat_Forall _ _ _ _ (getOAuthModels_objects h clock st)).
  - exact (map_repeat_Forall _ _ _ _ (getOAuthModels_owners h clock st)).
Qed.

Lemma models_list_shape_witness :
  exists (listing : gmap string value) (data : list value),
    served_listing
      (fst (ServeHTTP example_handler NewResponseWriter example_get
              example_clock initial_state)) = Some listing /\
    listing !! "object" = Some (VString "list") /\
    listing !! "data" = Some (VSlice (Some data)) /\
    Forall (fun e => field e "object" = Some (VString "model") /\
                     field e "owned_by" = Some (VString "anthropic")) data.
Proof.
  destruct (models_list_shape example_handler NewResponseWriter example_get
              example_clock initial_state eq_refl eq_refl)
    as (listing & data & Hbody & _ & _ & Hobj & Hdata & _ & Hall).
  exists listing, data. repeat split; try assumption.
  unfold served_listing. rewrite Hbody. reflexivity.
Defined.

(** In the listing a GET request is answered with, the top-level
    ["created"] of every model is the constant written in the source for
    it, a whole number of days since the epoch, the same at any clock and
    from any state; the ["created"] of each model's permission entry is a
    reading of the clock: the one of the [k]-th model is the [k]-th reading
    made while the listing is built. *)
Theorem created_fixed_permission_created_now (h : ModelsHandler)
    (w : ResponseWriter) (r : Request) (clock : nat -> Z) (st : State) :
  Method r = "GET" ->
  exists listing : gmap string value,
    served_listing (fst (ServeHTTP h w r clock st)) = Some listing /\
    map entry_created (data_of listing)
    = map (fun p => Some (snd p)) static_models /\
    Forall (fun p => snd p mod 86400 = 0) static_models /\
    (forall (h' : ModelsHandler) (clock' : nat -> Z) (st' : State),
        map entry_created (data_of (fst (getOAuthModels h' clock' st')))
        = map entry_created (data_of listing)) /\
    map permission_created (data_of listing)
    = map Some (readings clock (clockReads st) 9).
Proof.
  intros HM.
  assert (Hne : Method r <> "OPTIONS") by (rewrite HM; discriminate).
  exists (fst (getOAuthModels h clock st)).
  rewrite ServeHTTP_listing by assumption. cbn [fst].
  split; [apply served_listing_Write |].
  split; [apply getOAuthModels_created |].
  split; [repeat constructor |].
  split; [| apply getOAuthModels_permission_created].
  intros h' clock' st'. now rewrite !getOAuthModels_created.
Qed.

(** Two clocks an hour apart: the same top-level dates, permission dates
    that follow the clock. *)
Lemma created_fixed_permission_created_now_witness :
  exists listing : gmap string value,
    served_listing
      (fst (ServeHTTP example_handler NewResponseWriter example_get
              example_clock initial_state)) = Some listing /\
    map entry_created (data_of listing)
    = map entry_created
        (data_of (fst (getOAuthModels example_handler
                         (fun k => example_clock k + 3600) initial_state))) /\
    hd_error (map permission_created (data_of listing))
    = Some (Some 1761800000).
Proof.
  destruct (created_fixed_permission_created_now example_handler
              NewResponseWriter example_get example_clock initial_state eq_refl)
    as (listing & Hserved & _ & _ & Hsame & Hperm).
  exists listing. split; [exact Hserved |].
  split; [symmetry; apply Hsame |].
  rewrite Hperm. reflexivity.
Defined.

(** The calendar arithmetic agrees with the four constants of the source
    that do match their comment, and with the epoch. *)
Example unix_midnight_known_dates :
  unix_midnight (1970, 1, 1) = 0 /\
  unix_midnight (2024, 10, 22) = 1729555200 /\
  unix_midnight (2024, 6, 20) = 1718841600 /\
  unix_midnight (2024, 3, 7) = 1709769600 /\
  unix_midnight (2024, 2, 29) + 86400 = unix_midnight (2024, 3, 1).
Proof. repeat split. Qed.

(** C5. In the listing a GET request is answered with, the top-level
    ["created"] of a model is a constant, but not always the release date
    the source gives for it: counted in whole days after midnight UTC of
    the date in the comment (and in the id), the nine constants are 2, 2,
    1, 0, 0, 0, 1, 1 and 0 days late. The first model,
    [claude-opus-4-20250514], has ["created"] equal to midnight UTC of
    2025-05-16, more than 36 hours after the start of 2025-05-14 in UTC,
    hence on 2025-05-14 in no time zone. The ["created"] of each
    permission entry is a reading of the clock. *)
Theorem created_is_not_always_the_commented_date (h : ModelsHandler)
    (w : ResponseWriter) (r : Request) (clock : nat -> Z) (st : State) :
  Method r = "GET" ->
  exists listing : gmap string value,
    served_listing (fst (ServeHTTP h w r clock st)) = Some listing /\
    map entry_id (data_of listing) = map (fun p => Some (fst p)) static_models /\
    map entry_created (data_of listing)
    = map (fun p => Some (snd p)) static_models /\
    zip_with days_after_comment static_models commented_dates
    = [2; 2; 1; 0; 0; 0; 1; 1; 0] /\
    hd_error (map entry_id (data_of listing))
    = Some (Some "claude-opus-4-20250514") /\
    hd_error (map entry_created (data_of listing))
    = Some (Some (unix_midnight (2025, 5, 16))) /\
    unix_midnight (2025, 5, 16) > unix_midnight (2025, 5, 14) + 36 * 3600 /\
    map permission_created (data_of listing)
    = map Some (readings clock (clockReads st) 9).
Proof.
  intros HM.
  assert (Hne : Method r <> "OPTIONS") by (rewrite HM; discriminate).
  exists (fst (getOAuthModels h clock st)).
  rewrite ServeHTTP_listing by assumption. cbn [fst].
  split; [apply served_listing_Write |].
  rewrite getOAuthModels_ids, getOAuthModels_created,
    getOAuthModels_permission_created.
  repeat split.
Qed.

(** The listing of the GET request of the examples: its first model is
    dated two days after the date in its id. *)
Lemma created_is_not_always_the_commented_date_witness :
  exists listing : gmap string value,
    served_listing
      (fst (ServeHTTP example_handler NewResponseWriter example_get
              example_clock initial_state)) = Some listing /\
    hd_error (map entry_created (data_of listing))
    = Some (Some (unix_midnight (2025, 5, 14) + 2 * 86400)).
Proof.
  destruct (created_is_not_always_the_commented_date example_handler
              NewResponseWriter example_get example_clock initial_state eq_refl)
    as (listing & Hserved & _ & _ & _ & _ & Hfirst & _).
  exists listing. split; [exact Hserved |].
  rewrite Hfirst. reflexivity.
Defined.

(** C6. The answer to a request that is not [OPTIONS] does not depend on
    the token provider, the upstream URL or the HTTP client: two handlers,
    at the same clock and the same number of earlier readings, write the
    same status, headers and body; and [ServeHTTP] adds no call of
    [GetAccessToken] and no upstream request to the trace. *)
Theorem listing_independent_of_provider (h1 h2 : ModelsHandler)
    (w : ResponseWriter) (r : Request) (clock : nat -> Z) (st1 st2 : State) :
  Method r <> "OPTIONS" ->
  clockReads st1 = clockReads st2 ->
  fst (ServeHTTP h1 w r clock st1) = fst (ServeHTTP h2 w r clock st2) /\
  new_events (ServeHTTP h1 w r) clock st1 = [] /\
  new_events (ServeHTTP h2 w r) clock st2 = [].
Proof.
  intros HM Hclock.
  split; [| split].
  - rewrite !ServeHTTP_listing by assumption. cbn [fst].
    now rewrite (getOAuthModels_depends_on_clock_only h1 h2 clock st1 st2 Hclock).
  - apply new_events_unchanged.
    rewrite ServeHTTP_listing by assumption. cbn [snd].
    now rewrite getOAuthModels_state.
  - apply new_events_unchanged.
    rewrite ServeHTTP_listing by assumption. cbn [snd].
    now rewrite getOAuthModels_state.
Qed.

(** A provider that has a token and one that fails. *)
Lemma listing_independent_of_provider_witness :
  fst (ServeHTTP example_handler NewResponseWriter example_get
         example_clock initial_state)
  = fst (ServeHTTP failing_handler NewResponseWriter example_get
           example_clock initial_state) /\
  new_events (ServeHTTP failing_handler NewResponseWriter example_get)
    example_clock initial_state = [].
Proof.
  destruct (listing_independent_of_provider example_handler failing_handler
              NewResponseWriter example_get example_clock
              initial_state initial_state)
    as (Hsame & _ & Hquiet).
  - vm_compute. discriminate.
  - reflexivity.
  - split; [exact Hsame | exact Hquiet].
Defined.

(** ** Converting an upstream listing *)

Lemma openAIModel_fields (modelID : string) (t1 t2 : Z) :
  entry_id (openAIModel modelID t1 t2) = Some modelID /\
  permission_id (openAIModel modelID t1 t2) = Some ("modelperm-" +:+ modelID) /\
  entry_created (openAIModel modelID t1 t2) = Some t1 /\
  permission_created (openAIModel modelID t1 t2) = Some t2 /\
  field (openAIModel modelID t1 t2) "object" = Some (VString "model") /\
  field (openAIModel modelID t1 t2) "owned_by" = Some (VString "anthropic").
Proof. repeat split; vm_compute; reflexivity. Qed.

(** One turn of the loop on an object with a string ["id"]: two clock
    readings and one more model. *)
Lemma convert_loop_model (model : gmap string value) (modelID : string)
    (data : list value) (models : option (list value))
    (clock : nat -> Z) (st : State) :
  model !! "id" = Some (VString modelID) ->
  convert_loop (VMap model :: data) models clock st
  = convert_loop data
      (append models
         (openAIModel modelID (clock (clockReads st)) (clock (S (clockReads st)))))
      clock {| clockReads := S (S (clockReads st)); trace := trace st |}.
Proof.
  intros Hid. cbn [convert_loop]. rewrite Hid. reflexivity.
Qed.

(** One turn of the loop on anything else: nothing happens. *)
Lemma convert_loop_skip (item : value) (data : list value)
    (models : option (list value)) :
  entry_id item = None ->
  convert_loop (item :: data) models = convert_loop data models.
Proof.
  intros Hid. cbn [convert_loop].
  destruct item as [| b | n | bits | s | xs | model]; try reflexivity.
  unfold entry_id, field in Hid.
  destruct (model !! "id") as [[| b | n | bits | s | xs | m] |];
    try reflexivity; discriminate.
Qed.

Lemma entry_id_VMap (model : gmap string value) (modelID : string) :
  entry_id (VMap model) = Some modelID -> model !! "id" = Some (VString modelID).
Proof.
  unfold entry_id, field.
  destruct (model !! "id") as [[| b | n | bits | s | xs | m] |];
    try discriminate.
  now intros [= ->].
Qed.

(** The loop appends, in order, one model for each item with an id, and
    calls nothing outside. *)
Lemma convert_loop_spec (data : list value) :
  forall (models : option (list value)) (clock : nat -> Z) (st : State),
  exists added : list value,
    slice_elems (fst (convert_loop data models clock st))
    = slice_elems models ++ added /\
    Forall2 (fun e id => exists t1 t2, e = openAIModel id t1 t2)
            added (omap entry_id data) /\
    (added = [] -> fst (convert_loop data models clock st) = models) /\
    trace (snd (convert_loop data models clock st)) = trace st.
Proof.
  induction data as [| item data IH]; intros models clock st.
  - exists []. cbn. rewrite app_nil_r. repeat split. constructor.
  - destruct (entry_id item) as [modelID |] eqn:Hid.
    + destruct item as [| b | n | bits | s | xs | model]; try discriminate.
      rewrite (convert_loop_model model modelID) by now apply entry_id_VMap.
      set (e := openAIModel modelID _ _).
      set (st' := {| clockReads := _; trace := _ |}).
      destruct (IH (append models e) clock st') as (added & Hout & Hall & _ & Htr).
      exists (e :: added).
      split; [| split; [| split]].
      * rewrite Hout. unfold append. cbn [slice_elems].
        now rewrite <- app_assoc.
      * change (omap entry_id (VMap model :: data))
          with (match entry_id (VMap model) with
                | Some y => y :: omap entry_id data
                | None => omap entry_id data
                end).
        rewrite Hid. constructor; [| exact Hall].
        subst e. eauto.
      * discriminate.
      * exact Htr.
    + rewrite convert_loop_skip by assumption.
      destruct (IH models clock st) as (added & Hout & Hall & Hnil & Htr).
      exists added.
      split; [exact Hout |]. split; [| split; assumption].
      change (omap entry_id (item :: data))
        with (match entry_id item with
              | Some y => y :: omap entry_id data
              | None => omap entry_id data
              end).
      now rewrite Hid.
Qed.

Lemma convert_trace (h : ModelsHandler) (input : gmap string value)
    (clock : nat -> Z) (st : State) :
  trace (snd (convertAnthropicModelsToOpenAI h input clock st)) = trace st.
Proof.
  unfold convertAnthropicModelsToOpenAI.
  destruct (input !! "data") as [[| b | n | bits | s | xs | m] |];
    try reflexivity.
  unfold bind.
  destruct (convert_loop_spec (slice_elems xs) None clock st)
    as (added & _ & _ & _ & Htr).
  destruct (convert_loop (slice_elems xs) None clock st) as [models st1].
  exact Htr.
Qed.

(** C8. For every input map, the map [convertAnthropicModelsToOpenAI]
    returns has ["object"] equal to ["list"] and a ["data"] slice that
    holds, in input order, exactly one entry for each element of the
    input's ["data"] array that is an object with a string ["id"]: the
    entry has that id and the permission id ["modelperm-"] followed by it.
    Elements of another shape add nothing, and neither does an input whose
    ["data"] is missing or not an array. *)
Theorem convert_keeps_ids_in_order (h : ModelsHandler)
    (anthropicResponse : gmap string value) (clock : nat -> Z) (st : State) :
  let out := fst (convertAnthropicModelsToOpenAI h anthropicResponse clock st) in
  out !! "object" = Some (VString "list") /\
  exists xs : option (list value),
    out !! "data" = Some (VSlice xs) /\
    Forall2 (fun e id => entry_id e = Some id /\
                         permission_id e = Some ("modelperm-" +:+ id))
            (slice_elems xs) (model_ids anthropicResponse).
Proof.
  intros out. subst out.
  unfold convertAnthropicModelsToOpenAI, model_ids, data_of.
  destruct (anthropicResponse !! "data") as [v |].
  2: { cbn [ret fst]. split; [reflexivity |].
       exists (Some []). split; [reflexivity | constructor]. }
  destruct v as [| b | n | bits | s | xs | m];
    try (cbn [ret fst]; split; [reflexivity |];
         exists (Some []); split; [reflexivity | constructor]).
  unfold bind.
  destruct (convert_loop_spec (slice_elems xs) None clock st)
    as (added & Hout & Hall & _ & _).
  destruct (convert_loop (slice_elems xs) None clock st) as [models st1].
  cbn [fst snd ret] in *.
  split; [reflexivity |].
  exists models. split; [apply lookup_insert_eq |].
  rewrite Hout. cbn [slice_elems app].
  eapply Forall2_impl; [exact Hall |].
  intros e id (t1 & t2 & ->).
  destruct (openAIModel_fields id t1 t2) as (Hid & Hperm & _).
  split; assumption.
Qed.

Example convert_example :
  model_ids example_answer = ["claude-a"; "claude-b"] /\
  map entry_id
    (data_of (fst (convertAnthropicModelsToOpenAI example_handler example_answer
                     example_clock initial_state)))
  = [Some "claude-a"; Some "claude-b"] /\
  map permission_id
    (data_of (fst (convertAnthropicModelsToOpenAI example_handler example_answer
                     example_clock initial_state)))
  = [Some "modelperm-claude-a"; Some "modelperm-claude-b"].
Proof. repeat split; vm_compute; reflexivity. Qed.

(** When the input has a ["data"] array but no element of it is a model,
    ["data"] is the nil slice the loop started from, not the empty slice
    of the initial map. *)
Example convert_no_model_is_nil_slice :
  fst (convertAnthropicModelsToOpenAI example_handler
         {[ "data" := VSlice (Some [VString "claude-x"]) ]}
         example_clock initial_state) !! "data"
  = Some (VSlice None) /\
  fst (convertAnthropicModelsToOpenAI example_handler
         {[ "data" := VString "none" ]}
         example_clock initial_state) !! "data"
  = Some (VSlice (Some [])).
Proof. split; vm_compute; reflexivity. Qed.

(** ** The upstream request *)

Section Upstream.

Variable url_error : string -> option error.
Variable json_Unmarshal : string -> result (gmap string value).

(** The four [Set]s on the new request give [upstream_request]. *)
Lemma built_request (h : ModelsHandler) (accessToken : string) :
  req_Set
    (req_Set
       (req_Set
          (req_Set {| Method := "GET"; URL := upstreamURL h +:+ "/v1/models";
                      Header := ∅ |}
             "Authorization" ("Bearer " +:+ accessToken))
          "anthropic-version" "2023-06-01")
       "anthropic-beta" "oauth-2025-04-20")
    "Content-Type" "application/json"
  = upstream_request h accessToken.
Proof.
  unfold req_Set, upstream_request. cbn [Method URL Header].
  f_equal; vm_compute; reflexivity.
Qed.

(** The outside calls of [fetchModelsFromAnthropic]: the token provider
    first, then the upstream if there is a token and the URL is accepted. *)
Lemma fetch_events (h : ModelsHandler) (clock : nat -> Z) (st : State) :
  new_events (fetchModelsFromAnthropic url_error json_Unmarshal h) clock st
  = match GetAccessToken (tokenProvider h) with
    | Err _ => [EvGetAccessToken]
    | Ok accessToken =>
        match url_error (upstreamURL h +:+ "/v1/models") with
        | Some _ => [EvGetAccessToken]
        | None => [EvGetAccessToken; EvDo (upstream_request h accessToken)]
        end
    end.
Proof.
  apply new_events_added.
  unfold fetchModelsFromAnthropic, call_GetAccessToken, call_Do, NewRequest.
  unfold bind at 1 2. unfold emit at 1. unfold ret at 1.
  destruct (GetAccessToken (tokenProvider h)) as [accessToken | err];
    [| reflexivity].
  destruct (url_error (upstreamURL h +:+ "/v1/models")) as [err |];
    [reflexivity |].
  rewrite built_request.
  unfold bind at 1 2. unfold emit at 1. unfold ret at 1.
  cbn [trace clockReads].
  destruct (Do (httpClient h) (upstream_request h accessToken)) as [resp | err];
    [| cbn [ret snd trace]; now rewrite <- app_assoc].
  destruct (negb (StatusCode resp =? StatusOK));
    [cbn [ret snd trace]; now rewrite <- app_assoc |].
  destruct (Body resp) as [body | err];
    [| cbn [ret snd trace]; now rewrite <- app_assoc].
  destruct (json_Unmarshal body) as [anthropicResponse | err];
    [| cbn [ret snd trace]; now rewrite <- app_assoc].
  unfold bind.
  match goal with
  | |- context [convertAnthropicModelsToOpenAI h anthropicResponse clock ?s] =>
      pose proof (convert_trace h anthropicResponse clock s) as Htr;
      destruct (convertAnthropicModelsToOpenAI h anthropicResponse clock s)
        as [converted st1]
  end.
  cbn [ret snd trace] in *. rewrite Htr. now rewrite <- app_assoc.
Qed.

End Upstream.

(** C7, as stated, fails on the handler of the examples: the request it
    builds does not carry exactly the three required headers, it carries
    [Content-Type] as well. *)
Lemma upstream_request_not_only_required_headers :
  ~ (forall req : Request,
        In (EvDo req)
           (new_events
              (fetchModelsFromAnthropic (fun _ => None) (fun _ => Err "not JSON")
                 example_handler)
              example_clock initial_state) ->
        Header req = required_upstream_headers "tok").
Proof.
  intros Hclaim.
  specialize (Hclaim (upstream_request example_handler "tok")).
  rewrite fetch_events in Hclaim. cbn in Hclaim.
  assert (Heq : upstream_headers "tok" = required_upstream_headers "tok")
    by (apply Hclaim; right; left; reflexivity).
  apply (f_equal (fun hs => hs !! "Content-Type")) in Heq.
  vm_compute in Heq. discriminate.
Qed.

(** C7, amended. Whenever [fetchModelsFromAnthropic] builds a request to
    the upstream, the token provider has returned an access token, the
    request is a GET of the upstream URL followed by [/v1/models], and it
    carries exactly four headers: [Authorization] with ["Bearer "] and the
    token, [anthropic-version] with ["2023-06-01"], [anthropic-beta] with
    ["oauth-2025-04-20"], and [Content-Type] with ["application/json"]. *)
Theorem upstream_request_headers
    (url_error : string -> option error)
    (json_Unmarshal : string -> result (gmap string value))
    (h : ModelsHandler) (clock : nat -> Z) (st : State) (req : Request) :
  In (EvDo req)
     (new_events (fetchModelsFromAnthropic url_error json_Unmarshal h) clock st) ->
  exists accessToken : string,
    GetAccessToken (tokenProvider h) = Ok accessToken /\
    Method req = "GET" /\
    URL req = upstreamURL h +:+ "/v1/models" /\
    Header req = upstream_headers accessToken /\
    Header_Get (Header req) "Authorization" = "Bearer " +:+ accessToken /\
    Header_Get (Header req) "anthropic-version" = "2023-06-01" /\
    Header_Get (Header req) "anthropic-beta" = "oauth-2025-04-20" /\
    Header_Get (Header req) "Content-Type" = "application/json" /\
    dom (Header req)
    = {[ "Authorization"; "Anthropic-Version"; "Anthropic-Beta"; "Content-Type" ]}.
Proof.
  rewrite fetch_events.
  destruct (GetAccessToken (tokenProvider h)) as [accessToken | err].
  2: { intros [Hev | []]. discriminate. }
  destruct (url_error (upstreamURL h +:+ "/v1/models")) as [err |].
  1: { intros [Hev | []]. discriminate. }
  intros [Hev | [Hev | []]]; [discriminate |].
  injection Hev as <-.
  exists accessToken. cbn [upstream_request Method URL Header].
  repeat split; vm_compute; reflexivity.
Qed.

Lemma upstream_request_headers_witness :
  exists accessToken : string,
    GetAccessToken (tokenProvider example_handler) = Ok accessToken /\
    Header (upstream_request example_handler "tok") = upstream_headers accessToken.
Proof.
  destruct (upstream_request_headers (fun _ => None) (fun _ => Err "not JSON")
              example_handler example_clock initial_state
              (upstream_request example_handler "tok"))
    as (accessToken & Htok & _ & _ & Hhdr & _).
  - vm_compute. right. left. reflexivity.
  - exists accessToken. split; assumption.
Defined.

(** [fetchModelsFromAnthropic] does ask the token provider, on every run:
    the trace tells the two functions apart. *)
Lemma fetch_asks_token_provider
    (url_error : string -> option error)
    (json_Unmarshal : string -> result (gmap string value))
    (h : ModelsHandler) (clock : nat -> Z) (st : State) :
  In EvGetAccessToken
     (new_events (fetchModelsFromAnthropic url_error json_Unmarshal h) clock st).
Proof.
  rewrite fetch_events.
  destruct (GetAccessToken (tokenProvider h));
    [destruct (url_error _) |]; left; reflexivity.
Qed.

(* ===================================================================== *)
(** * Further properties of package [components] *)
(* ===================================================================== *)

Lemma one_of_app (s : string) (l1 l2 : list string) :
  one_of s (l1 ++ l2) = one_of s l1 || one_of s l2.
Proof. unfold one_of. apply existsb_app. Qed.

(** The cases of a [switch] do not overlap: a name found in one list of
    distinct names is not in a list that shares none with it. *)
Lemma one_of_disjoint (s : string) (l1 l2 : list string) :
  (forall x, In x l1 -> ~ In x l2) ->
  one_of s l1 = true -> one_of s l2 = false.
Proof.
  intros Hdis H1. apply one_of_not_In. apply Hdis. now apply one_of_In.
Qed.

Lemma settle_settle (m : ConfirmModel) (a b : bool) :
  settle (settle m a) b = settle m b.
Proof. reflexivity. Qed.

Section PromptRuns.

Context {K : Type} `{KeyPress K}.

(** What [ConfirmModel.Update] does with a key it has a case for. *)
Lemma ConfirmModel_Update_handled (m : ConfirmModel) (msg : Msg K) :
  is_key handled_keys msg = true ->
  ConfirmModel_Update m msg = (settle m (is_key ["y"; "Y"] msg), Some Quit).
Proof.
  destruct msg as [key | kind]; [| discriminate].
  cbn [is_key]. unfold handled_keys, ConfirmModel_Update.
  rewrite (one_of_app _ ["y"; "Y"] ["n"; "N"; "ctrl+c"; "esc"]).
  rewrite (one_of_app _ ["n"; "N"] ["ctrl+c"; "esc"]).
  destruct (one_of (Key_String key) ["y"; "Y"]); [reflexivity |].
  destruct (one_of (Key_String key) ["n"; "N"]); [reflexivity |].
  destruct (one_of (Key_String key) ["ctrl+c"; "esc"]); [reflexivity |].
  discriminate.
Qed.

(** What [ConfirmDefaultModel.Update] does with a key it has a case for. *)
Lemma ConfirmDefaultModel_Update_handled (m : ConfirmDefaultModel) (msg : Msg K) :
  is_key handled_keys_default msg = true ->
  ConfirmDefaultModel_Update m msg
  = ({| embedded :=
          settle (embedded m)
            (is_key ["y"; "Y"] msg || is_key ["enter"] msg && defaultYes m);
        defaultYes := defaultYes m |},
     Some Quit).
Proof.
  destruct msg as [key | kind]; [| discriminate].
  cbn [is_key]. unfold handled_keys_default, ConfirmDefaultModel_Update.
  rewrite (one_of_app _ ["y"; "Y"] ["n"; "N"; "enter"; "ctrl+c"; "esc"]).
  rewrite (one_of_app _ ["n"; "N"] ["enter"; "ctrl+c"; "esc"]).
  rewrite (one_of_app _ ["enter"] ["ctrl+c"; "esc"]).
  destruct (one_of (Key_String key) ["y"; "Y"]); [reflexivity |].
  destruct (one_of (Key_String key) ["n"; "N"]) eqn:Hn.
  { rewrite (one_of_disjoint _ ["n"; "N"] ["enter"]); [reflexivity | | exact Hn].
    cbn. intros x [<- | [<- | []]] [E | []]; discriminate. }
  destruct (one_of (Key_String key) ["enter"]); [reflexivity |].
  destruct (one_of (Key_String key) ["ctrl+c"; "esc"]); [reflexivity |].
  discriminate.
Qed.

Lemma feed_cons (m : ConfirmModel) (msg : Msg K) (msgs : list (Msg K)) :
  feed m (msg :: msgs) = feed (fst (ConfirmModel_Update m msg)) msgs.
Proof. reflexivity. Qed.

Lemma feed_default_cons (m : ConfirmDefaultModel) (msg : Msg K)
    (msgs : list (Msg K)) :
  feed_default m (msg :: msgs)
  = feed_default (fst (ConfirmDefaultModel_Update m msg)) msgs.
Proof. reflexivity. Qed.

Lemma feed_app (m : ConfirmModel) (l1 l2 : list (Msg K)) :
  feed m (l1 ++ l2) = feed (feed m l1) l2.
Proof. unfold feed. apply fold_left_app. Qed.

Lemma feed_default_app (m : ConfirmDefaultModel) (l1 l2 : list (Msg K)) :
  feed_default m (l1 ++ l2) = feed_default (feed_default m l1) l2.
Proof. unfold feed_default. apply fold_left_app. Qed.

(** No message changes the question. *)
Lemma feed_question (msgs : list (Msg K)) :
  forall m : ConfirmModel, question (feed m msgs) = question m.
Proof.
  induction msgs as [| msg msgs IH]; intros m; [reflexivity |].
  rewrite feed_cons, IH.
  destruct (is_key handled_keys msg) eqn:Hk.
  - now rewrite ConfirmModel_Update_handled.
  - now rewrite ConfirmModel_Update_ignore.
Qed.

(** No message changes the question or the default. *)
Lemma feed_default_fixed (msgs : list (Msg K)) :
  forall m : ConfirmDefaultModel,
    question (embedded (feed_default m msgs)) = question (embedded m) /\
    defaultYes (feed_default m msgs) = defaultYes m.
Proof.
  induction msgs as [| msg msgs IH]; intros m; [split; reflexivity |].
  rewrite feed_default_cons.
  destruct (IH (fst (ConfirmDefaultModel_Update m msg))) as [-> ->].
  destruct (is_key handled_keys_default msg) eqn:Hk.
  - rewrite ConfirmDefaultModel_Update_handled by assumption. split; reflexivity.
  - rewrite ConfirmDefaultModel_Update_ignore by assumption. split; reflexivity.
Qed.

(** Messages without a case leave the model as it is. *)
Lemma feed_ignored (msgs : list (Msg K)) (m : ConfirmModel) :
  Forall (fun msg => is_key handled_keys msg = false) msgs ->
  feed m msgs = m.
Proof.
  induction 1 as [| msg msgs Hmsg _ IH]; [reflexivity |].
  now rewrite feed_cons, ConfirmModel_Update_ignore.
Qed.

Lemma feed_default_ignored (msgs : list (Msg K)) (m : ConfirmDefaultModel) :
  Forall (fun msg => is_key handled_keys_default msg = false) msgs ->
  feed_default m msgs = m.
Proof.
  induction 1 as [| msg msgs Hmsg _ IH]; [reflexivity |].
  now rewrite feed_default_cons, ConfirmDefaultModel_Update_ignore.
Qed.

Lemma settle_same_question (m1 m2 : ConfirmModel) (a : bool) :
  question m1 = question m2 -> settle m1 a = settle m2 a.
Proof. unfold settle. now intros ->. Qed.

(** An answer of yes comes from the start or from a yes key. *)
Lemma feed_answer_true (msgs : list (Msg K)) :
  forall m : ConfirmModel,
    answer (feed m msgs) = true ->
    answer m = true \/
    exists key : K, In (KeyMsg key) msgs /\ In (Key_String key) ["y"; "Y"].
Proof.
  induction msgs as [| msg msgs IH]; intros m Hyes; [now left |].
  rewrite feed_cons in Hyes. apply IH in Hyes as [Hyes | (key & Hin & Hy)].
  2: { right. exists key. split; [now right | exact Hy]. }
  destruct (is_key handled_keys msg) eqn:Hk.
  - rewrite ConfirmModel_Update_handled in Hyes by assumption.
    cbn [fst settle answer] in Hyes.
    destruct msg as [key | kind]; [| discriminate].
    right. exists key. split; [now left | now apply one_of_In].
  - rewrite ConfirmModel_Update_ignore in Hyes by assumption. now left.
Qed.

End PromptRuns.

(** X1. Both [Update] methods return [tea.Quit] exactly for the key
    messages they have a case for; such a message always leaves
    [answered = true], any other leaves [answered] as it was; and no
    message changes the question or the default. *)
Theorem Update_quits_exactly_when_answering {K : Type} `{KeyPress K}
    (m : ConfirmModel) (d : ConfirmDefaultModel) (msg : Msg K) :
  (snd (ConfirmModel_Update m msg) = Some Quit
     <-> is_key handled_keys msg = true) /\
  answered (fst (ConfirmModel_Update m msg))
    = answered m || is_key handled_keys msg /\
  question (fst (ConfirmModel_Update m msg)) = question m /\
  (snd (ConfirmDefaultModel_Update d msg) = Some Quit
     <-> is_key handled_keys_default msg = true) /\
  answered (embedded (fst (ConfirmDefaultModel_Update d msg)))
    = answered (embedded d) || is_key handled_keys_default msg /\
  question (embedded (fst (ConfirmDefaultModel_Update d msg)))
    = question (embedded d) /\
  defaultYes (fst (ConfirmDefaultModel_Update d msg)) = defaultYes d.
Proof.
  assert (Hm : (snd (ConfirmModel_Update m msg) = Some Quit
                  <-> is_key handled_keys msg = true) /\
               answered (fst (ConfirmModel_Update m msg))
                 = answered m || is_key handled_keys msg /\
               question (fst (ConfirmModel_Update m msg)) = question m).
  { destruct (is_key handled_keys msg) eqn:Hk.
    - rewrite ConfirmModel_Update_handled by assumption. cbn.
      rewrite orb_true_r. repeat split.
    - rewrite ConfirmModel_Update_ignore by assumption. cbn.
      rewrite orb_false_r. repeat split; discriminate. }
  destruct Hm as (Hq & Ha & Hs).
  split; [exact Hq |]. split; [exact Ha |]. split; [exact Hs |].
  destruct (is_key handled_keys_default msg) eqn:Hk.
  - rewrite ConfirmDefaultModel_Update_handled by assumption. cbn.
    rewrite orb_true_r. repeat split.
  - rewrite ConfirmDefaultModel_Update_ignore by assumption. cbn.
    rewrite orb_false_r. repeat split; discriminate.
Qed.

(** X2. Whatever messages a [ConfirmModel] gets, the last key with a case
    decides alone: the model is the initial one settled on yes when that
    key is ["y"] or ["Y"] and on no otherwise, also when earlier keys had
    answered differently. *)
Theorem last_handled_key_decides {K : Type} `{KeyPress K}
    (m : ConfirmModel) (before after : list (Msg K)) (key : K) :
  In (Key_String key) handled_keys ->
  Forall (fun msg => is_key handled_keys msg = false) after ->
  feed m (before ++ KeyMsg key :: after)
  = settle m (one_of (Key_String key) ["y"; "Y"]).
Proof.
  intros Hkey Hafter.
  rewrite feed_app, feed_cons.
  rewrite ConfirmModel_Update_handled by (cbn [is_key]; now apply one_of_In).
  cbn [fst is_key]. rewrite feed_ignored by assumption.
  apply settle_same_question, feed_question.
Qed.

(** A yes, a stray key, then a no and a window message: the answer is
    no. *)
Lemma last_handled_key_decides_witness :
  feed (NewConfirm "Proceed?")
       ([KeyMsg "y"; KeyMsg "x"] ++ KeyMsg "n" :: [OtherMsg 0; KeyMsg "enter"])
  = {| question := "Proceed?"; answer := false; answered := true |}.
Proof.
  rewrite (last_handled_key_decides (NewConfirm "Proceed?")
             [KeyMsg "y"; KeyMsg "x"] [OtherMsg 0; KeyMsg "enter"] "n").
  - reflexivity.
  - cbn. tauto.
  - repeat constructor.
Defined.

(** X3. Whatever messages a [ConfirmDefaultModel] gets, the last key with
    a case decides alone: yes for ["y"] and ["Y"], the default for
    ["enter"], no for ["n"], ["N"], ["ctrl+c"] and ["esc"]. *)
Theorem last_handled_key_decides_default {K : Type} `{KeyPress K}
    (m : ConfirmDefaultModel) (before after : list (Msg K)) (key : K) :
  In (Key_String key) handled_keys_default ->
  Forall (fun msg => is_key handled_keys_default msg = false) after ->
  feed_default m (before ++ KeyMsg key :: after)
  = {| embedded :=
         settle (embedded m)
           (one_of (Key_String key) ["y"; "Y"]
            || one_of (Key_String key) ["enter"] && defaultYes m);
       defaultYes := defaultYes m |}.
Proof.
  intros Hkey Hafter.
  rewrite feed_default_app, feed_default_cons.
  rewrite ConfirmDefaultModel_Update_handled
    by (cbn [is_key]; now apply one_of_In).
  cbn [fst is_key]. rewrite feed_default_ignored by assumption.
  destruct (feed_default_fixed before m) as [Hq ->].
  f_equal. now apply settle_same_question.
Qed.

(** A no and then [enter] on a prompt whose default is yes: the answer is
    yes. *)
Lemma last_handled_key_decides_default_witness :
  answer (embedded
    (feed_default
       {| embedded := {| question := "Proceed?"; answer := true;
                         answered := false |};
          defaultYes := true |}
       ([KeyMsg "n"] ++ KeyMsg "enter" :: [OtherMsg 0])))
  = true.
Proof.
  rewrite (last_handled_key_decides_default
             {| embedded := {| question := "Proceed?"; answer := true;
                               answered := false |};
                defaultYes := true |}
             [KeyMsg "n"] [OtherMsg 0] "enter").
  - reflexivity.
  - cbn. tauto.
  - repeat constructor.
Defined.

(** X4. [Confirm] returns [true] only after an explicit yes: without a
    TTY, when the scanned line is one of y, Y, yes, Yes, YES; with a TTY,
    when the program ended without error and, its final model being the
    initial one after some messages, one of them was the key ["y"] or
    ["Y"]. *)
Theorem Confirm_true_needs_yes {K : Type} `{KeyPress K}
    (t : Terminal ConfirmModel) (question : string) :
  (forall final : ConfirmModel,
      Run t (NewConfirm question) = Ok final ->
      exists msgs : list (Msg K), final = feed (NewConfirm question) msgs) ->
  Confirm t question = true ->
  (IsInteractive t = false /\
   exists response : string,
     Scanln t = Scanned response /\
     In response ["y"; "Y"; "yes"; "Yes"; "YES"]) \/
  (IsInteractive t = true /\
   exists (msgs : list (Msg K)) (key : K),
     Run t (NewConfirm question) = Ok (feed (NewConfirm question) msgs) /\
     In (KeyMsg key) msgs /\ In (Key_String key) ["y"; "Y"]).
Proof.
  intros Hrun Hc. unfold Confirm in Hc.
  destruct (IsInteractive t); cbn [negb] in Hc.
  - right. split; [reflexivity |].
    destruct (Run t (NewConfirm question)) as [final | err] eqn:Hfinal;
      [| discriminate].
    destruct (Hrun final eq_refl) as (msgs & ->).
    apply feed_answer_true in Hc as [Hinit | (key & Hin & Hy)];
      [discriminate |].
    exists msgs, key. repeat split; assumption.
  - left. split; [reflexivity |].
    unfold confirmNonInteractive in Hc.
    destruct (Scanln t) as [response | response err]; [| discriminate].
    destruct (one_of response ["y"; "Y"; "yes"; "Yes"; "YES"]) eqn:Hy.
    + exists response. split; [reflexivity | now apply one_of_In].
    + destruct (one_of response ["n"; "N"; "no"; "No"; "NO"]); discriminate.
Qed.

Lemma Confirm_true_needs_yes_witness :
  exists (msgs : list (Msg string)) (key : string),
    Run (typing [KeyMsg "x"; KeyMsg "Y"]) (NewConfirm "Proceed?")
    = Ok (feed (NewConfirm "Proceed?") msgs) /\
    In (KeyMsg key) msgs /\ In (Key_String key) ["y"; "Y"].
Proof.
  destruct (@Confirm_true_needs_yes string named_key
              (typing [KeyMsg "x"; KeyMsg "Y"]) "Proceed?")
    as [[Hno _] | [_ Hyes]].
  - intros final [= <-]. now exists [KeyMsg "x"; KeyMsg "Y"].
  - reflexivity.
  - discriminate.
  - exact Hyes.
Defined.

(** X5. What [ConfirmWithDefault] falls back to: with a TTY, [false] when
    the program returns an error, whatever the default, and the default
    when the program ends after messages none of which is a key with a
    case; without a TTY, the default when the scan fails. *)
Theorem ConfirmWithDefault_fallbacks {K : Type} `{KeyPress K} `{Styles}
    (t : Terminal ConfirmDefaultModel) (question : string) (defaultYes : bool)
    (msgs : list (Msg K)) (response err : string) :
  (IsInteractive t = true ->
   Run t (default_prompt question defaultYes) = Err err ->
   ConfirmWithDefault t question defaultYes = false) /\
  (IsInteractive t = true ->
   Run t (default_prompt question defaultYes)
     = Ok (feed_default (default_prompt question defaultYes) msgs) ->
   Forall (fun msg => is_key handled_keys_default msg = false) msgs ->
   ConfirmWithDefault t question defaultYes = defaultYes) /\
  (IsInteractive t = false ->
   Scanln t = ScanFailed response err ->
   ConfirmWithDefault t question defaultYes = defaultYes).
Proof.
  unfold ConfirmWithDefault. repeat split.
  - intros -> ->. reflexivity.
  - intros -> -> Hnone. cbn [negb].
    now rewrite feed_default_ignored.
  - intros -> ->. reflexivity.
Qed.

(** A default of yes: no when the program fails, yes when only the window
    changes, yes when standard input is closed. *)
Lemma ConfirmWithDefault_fallbacks_witness :
  @ConfirmWithDefault example_styles broken_tty "Proceed?" true = false /\
  @ConfirmWithDefault example_styles (typing_default [OtherMsg 0; KeyMsg "x"])
    "Proceed?" true = true /\
  @ConfirmWithDefault example_styles (piped (ScanFailed EmptyString "EOF"))
    "Proceed?" true = true.
Proof.
  destruct (@ConfirmWithDefault_fallbacks string named_key example_styles
              broken_tty "Proceed?" true [] EmptyString
              "could not open a new TTY") as (Herr & _ & _).
  destruct (@ConfirmWithDefault_fallbacks string named_key example_styles
              (typing_default [OtherMsg 0; KeyMsg "x"]) "Proceed?" true
              [OtherMsg 0; KeyMsg "x"] EmptyString EmptyString)
    as (_ & Hnone & _).
  destruct (@ConfirmWithDefault_fallbacks string named_key example_styles
              (piped (ScanFailed EmptyString "EOF")) "Proceed?" true
              [] EmptyString "EOF") as (_ & _ & Hscan).
  split; [| split].
  - apply Herr; reflexivity.
  - apply Hnone; [reflexivity | reflexivity | repeat constructor].
  - apply Hscan; reflexivity.
Defined.

(** X6. With a TTY and a program that ends without error after some
    messages, [ConfirmWithDefault] returns what the last key with a case
    says: [true] for ["y"] and ["Y"], the default for ["enter"], [false]
    for ["n"], ["N"], ["ctrl+c"] and ["esc"]. *)
Theorem ConfirmWithDefault_answer {K : Type} `{KeyPress K} `{Styles}
    (t : Terminal ConfirmDefaultModel) (question : string) (defaultYes : bool)
    (before after : list (Msg K)) (key : K) :
  IsInteractive t = true ->
  Run t (default_prompt question defaultYes)
    = Ok (feed_default (default_prompt question defaultYes)
            (before ++ KeyMsg key :: after)) ->
  In (Key_String key) handled_keys_default ->
  Forall (fun msg => is_key handled_keys_default msg = false) after ->
  ConfirmWithDefault t question defaultYes
  = one_of (Key_String key) ["y"; "Y"]
    || one_of (Key_String key) ["enter"] && defaultYes.
Proof.
  intros Htty Hrun Hkey Hafter. unfold ConfirmWithDefault.
  rewrite Htty, Hrun. cbn [negb].
  rewrite feed_default_app, feed_default_cons.
  rewrite ConfirmDefaultModel_Update_handled
    by (cbn [is_key]; now apply one_of_In).
  cbn [fst is_key]. rewrite feed_default_ignored by assumption.
  destruct (feed_default_fixed before (default_prompt question defaultYes))
    as [_ ->].
  reflexivity.
Qed.

(** A prompt whose default is yes: [enter] after a stray key says yes,
    [esc] says no. *)
Lemma ConfirmWithDefault_answer_witness :
  @ConfirmWithDefault example_styles
    (typing_default ([KeyMsg "x"] ++ KeyMsg "enter" :: [OtherMsg 0]))
    "Proceed?" true = true /\
  @ConfirmWithDefault example_styles
    (typing_default ([] ++ KeyMsg "esc" :: []))
    "Proceed?" true = false.
Proof.
  split.
  - rewrite (@ConfirmWithDefault_answer string named_key example_styles
               (typing_default ([KeyMsg "x"] ++ KeyMsg "enter" :: [OtherMsg 0]))
               "Proceed?" true [KeyMsg "x"] [OtherMsg 0] "enter");
      [reflexivity | reflexivity | reflexivity | cbn; tauto
      | repeat constructor].
  - rewrite (@ConfirmWithDefault_answer string named_key example_styles
               (typing_default ([] ++ KeyMsg "esc" :: []))
               "Proceed?" true [] [] "esc");
      [reflexivity | reflexivity | reflexivity | cbn; tauto | constructor].
Defined.

(** X7. What [ConfirmWithDefault]'s prompt shows. Before any key with a
    case, the view is the question, the hint of the default, and then the
    hint ["(y/N)"] again, whatever the default is; after such a key it is
    the question, the hint of the default, and ["Yes"] or ["No"] as the
    last such key says, ended by a newline. *)
Theorem default_prompt_view {K : Type} `{KeyPress K} `{Styles}
    (question : string) (defaultYes : bool)
    (before after : list (Msg K)) (key : K) :
  let hint := HelpStyle_Render (if defaultYes then "(Y/n)" else "(y/N)") in
  ConfirmDefaultModel_View (default_prompt question defaultYes)
  = (question +:+ " " +:+ hint) +:+ " " +:+ HelpStyle_Render "(y/N)" +:+ " " /\
  (In (Key_String key) handled_keys_default ->
   Forall (fun msg => is_key handled_keys_default msg = false) after ->
   ConfirmDefaultModel_View
     (feed_default (default_prompt question defaultYes)
        (before ++ KeyMsg key :: after))
   = (question +:+ " " +:+ hint) +:+ " "
     +:+ InfoStyle_Render
           (if one_of (Key_String key) ["y"; "Y"]
               || one_of (Key_String key) ["enter"] && defaultYes
            then "Yes" else "No")
     +:+ newline).
Proof.
  intros hint. subst hint. split.
  - destruct defaultYes; reflexivity.
  - intros Hkey Hafter.
    rewrite feed_default_app, feed_default_cons.
    rewrite ConfirmDefaultModel_Update_handled
      by (cbn [is_key]; now apply one_of_In).
    cbn [fst is_key]. rewrite feed_default_ignored by assumption.
    destruct (feed_default_fixed before (default_prompt question defaultYes))
      as [Hq ->].
    unfold ConfirmDefaultModel_View, ConfirmModel_View.
    cbn [embedded settle answered answer Components.question].
    rewrite Hq.
    cbn [default_prompt Components.defaultYes embedded Components.question].
    destruct defaultYes;
      destruct (one_of (Key_String key) ["y"; "Y"]);
      destruct (one_of (Key_String key) ["enter"]); reflexivity.
Qed.

(** With a default of yes the prompt shows both hints; after [enter] it
    shows the answer. *)
Lemma default_prompt_view_witness :
  @ConfirmDefaultModel_View example_styles
    (@default_prompt example_styles "Proceed?" true)
  = "Proceed? [(Y/n)] [(y/N)] " /\
  @ConfirmDefaultModel_View example_styles
    (feed_default (@default_prompt example_styles "Proceed?" true)
       ([] ++ KeyMsg "enter" :: []))
  = "Proceed? [(Y/n)] <Yes>" +:+ newline.
Proof.
  destruct (@default_prompt_view string named_key example_styles
              "Proceed?" true [] [] "enter") as [Hfirst Hlast].
  split.
  - rewrite Hfirst. reflexivity.
  - rewrite Hlast; [reflexivity | cbn; tauto | constructor].
Defined.


(* ===================================================================== *)
(** * Further properties of package [proxy] *)
(* ===================================================================== *)

(** ** The converter, in full *)

Lemma omap_entry_id_cons (item : value) (data : list value) :
  omap entry_id (item :: data)
  = match entry_id item with
    | Some id => id :: omap entry_id data
    | None => omap entry_id data
    end.
Proof. reflexivity. Qed.

Lemma state_eta (st : State) (k : nat) :
  k = clockReads st -> {| clockReads := k; trace := trace st |} = st.
Proof. intros ->. now destruct st. Qed.

(** The loop, in full: the slice it returns, and the state it leaves. *)
Lemma convert_loop_stamped (data : list value) :
  forall (models : option (list value)) (clock : nat -> Z) (st : State),
    fst (convert_loop data models clock st)
    = match omap entry_id data with
      | [] => models
      | ids => Some (slice_elems models ++ stamped clock (clockReads st) ids)
      end /\
    snd (convert_loop data models clock st)
    = {| clockReads := (clockReads st + 2 * length (omap entry_id data))%nat;
         trace := trace st |}.
Proof.
  induction data as [| item data IH]; intros models clock st.
  - split; [reflexivity |]. cbn. symmetry. apply state_eta. lia.
  - rewrite omap_entry_id_cons.
    destruct (entry_id item) as [modelID |] eqn:Hid.
    + destruct item as [| b | n | bits | s | xs | model]; try discriminate.
      rewrite (convert_loop_model model modelID) by now apply entry_id_VMap.
      match goal with
      | |- context [convert_loop data ?ms clock ?s] =>
          destruct (IH ms clock s) as [Hfst Hsnd]
      end.
      rewrite Hfst, Hsnd. cbn [clockReads trace length stamped].
      split.
      * unfold append. cbn [slice_elems].
        destruct (omap entry_id data); [reflexivity |].
        now rewrite <- app_assoc.
      * f_equal. lia.
    + rewrite convert_loop_skip by assumption. apply IH.
Qed.

(** The converter, in full. *)
Lemma convert_run (h : ModelsHandler) (input : gmap string value)
    (clock : nat -> Z) (st : State) :
  convertAnthropicModelsToOpenAI h input clock st
  = (match input !! "data" with
     | Some (VSlice xs) =>
         <["data" := VSlice (match model_ids input with
                             | [] => None
                             | ids => Some (stamped clock (clockReads st) ids)
                             end)]> empty_listing
     | _ => empty_listing
     end,
     {| clockReads := (clockReads st + 2 * length (model_ids input))%nat;
        trace := trace st |}).
Proof.
  unfold convertAnthropicModelsToOpenAI, model_ids, data_of.
  destruct (input !! "data") as [v |];
    [| cbn; f_equal; symmetry; apply state_eta; lia].
  destruct v as [| b | n | bits | s | xs | m];
    try (cbn; f_equal; symmetry; apply state_eta; lia).
  unfold bind.
  destruct (convert_loop_stamped (slice_elems xs) None clock st) as [Hfst Hsnd].
  destruct (convert_loop (slice_elems xs) None clock st) as [models st1].
  cbn [fst snd] in Hfst, Hsnd. subst models st1. reflexivity.
Qed.

Lemma data_of_convert (h : ModelsHandler) (input : gmap string value)
    (clock : nat -> Z) (st : State) :
  data_of (fst (convertAnthropicModelsToOpenAI h input clock st))
  = stamped clock (clockReads st) (model_ids input).
Proof.
  rewrite convert_run. cbn [fst]. unfold model_ids, data_of.
  destruct (input !! "data") as [v |]; [| reflexivity].
  destruct v as [| b | n | bits | s | xs | m]; try reflexivity.
  rewrite lookup_insert_eq.
  destruct (omap entry_id (slice_elems xs)); reflexivity.
Qed.

Lemma stamped_ids (clock : nat -> Z) (ids : list string) :
  forall k : nat, omap entry_id (stamped clock k ids) = ids.
Proof.
  induction ids as [| id ids IH]; intros k; [reflexivity |].
  cbn [stamped]. rewrite omap_entry_id_cons.
  rewrite (proj1 (openAIModel_fields id _ _)). now rewrite IH.
Qed.

Lemma stamped_length (clock : nat -> Z) (ids : list string) :
  forall k : nat, length (stamped clock k ids) = length ids.
Proof.
  induction ids as [| id ids IH]; intros k; [reflexivity |].
  cbn. now rewrite IH.
Qed.

Lemma stamped_created (clock : nat -> Z) (ids : list string) :
  forall k : nat,
    map entry_created (stamped clock k ids)
    = map (fun i => Some (clock (k + 2 * i)%nat)) (seq 0 (length ids)) /\
    map permission_created (stamped clock k ids)
    = map (fun i => Some (clock (k + 2 * i + 1)%nat)) (seq 0 (length ids)).
Proof.
  induction ids as [| id ids IH]; intros k; [split; reflexivity |].
  cbn [stamped length seq map].
  destruct (openAIModel_fields id (clock k) (clock (S k)))
    as (_ & _ & Hc & Hp & _).
  rewrite Hc, Hp. destruct (IH (S (S k))) as [-> ->].
  rewrite <- !seq_shift, !map_map.
  split; f_equal.
  - do 2 f_equal. lia.
  - apply map_ext. intros i. do 2 f_equal. lia.
  - do 2 f_equal. lia.
  - apply map_ext. intros i. do 2 f_equal. lia.
Qed.

Lemma stamped_entry_ids (clock : nat -> Z) (ids : list string) :
  forall k : nat, map entry_id (stamped clock k ids) = map Some ids.
Proof.
  induction ids as [| id ids IH]; intros k; [reflexivity |].
  cbn [stamped map].
  rewrite (proj1 (openAIModel_fields id _ _)). now rewrite IH.
Qed.

Lemma omap_entry_id_length (data : list value) :
  (length (omap entry_id data) <= length data)%nat.
Proof.
  induction data as [| item data IH]; [reflexivity |].
  rewrite omap_entry_id_cons. destruct (entry_id item); cbn; lia.
Qed.

(** X8. [convertAnthropicModelsToOpenAI] reads the clock twice for each
    model it emits and calls nothing outside: the top-level ["created"] of
    the [i]-th entry is reading [2i] and the ["created"] of its permission
    is reading [2i+1], counted from the readings made before; the output
    has one entry per id of the input. *)
Theorem convert_stamps_each_model_twice (h : ModelsHandler)
    (input : gmap string value) (clock : nat -> Z) (st : State) :
  let out := fst (convertAnthropicModelsToOpenAI h input clock st) in
  let st' := snd (convertAnthropicModelsToOpenAI h input clock st) in
  let n := length (model_ids input) in
  length (data_of out) = n /\
  clockReads st' = (clockReads st + 2 * n)%nat /\
  trace st' = trace st /\
  map entry_created (data_of out)
  = map (fun i => Some (clock (clockReads st + 2 * i)%nat)) (seq 0 n) /\
  map permission_created (data_of out)
  = map (fun i => Some (clock (clockReads st + 2 * i + 1)%nat)) (seq 0 n).
Proof.
  intros out st' n. subst out st' n.
  rewrite data_of_convert, convert_run. cbn [snd clockReads trace].
  rewrite stamped_length.
  destruct (stamped_created clock (model_ids input) (clockReads st)) as [-> ->].
  repeat split.
Qed.

(** X9. Converting keeps the ids: the ids of the output are those of the
    input, so converting the output again, by any handler at any clock,
    gives entries with the same ids in the same order. *)
Theorem convert_ids_fixed_point (h h' : ModelsHandler)
    (input : gmap string value) (clock clock' : nat -> Z) (st st' : State) :
  let out := fst (convertAnthropicModelsToOpenAI h input clock st) in
  model_ids out = model_ids input /\
  map entry_id (data_of (fst (convertAnthropicModelsToOpenAI h' out clock' st')))
  = map entry_id (data_of out).
Proof.
  intros out.
  assert (Hids : model_ids out = model_ids input).
  { subst out. unfold model_ids at 1.
    rewrite data_of_convert. apply stamped_ids. }
  split; [exact Hids |].
  rewrite data_of_convert, Hids. subst out. rewrite data_of_convert.
  now rewrite !stamped_entry_ids.
Qed.

(** X10. The entries the converter emits depend on the input only through
    its ids: two inputs with the same ids, converted by any two handlers at
    the same clock after the same number of readings, give the same
    entries, whatever else the inputs hold. *)
Theorem convert_depends_on_ids_only (h1 h2 : ModelsHandler)
    (input1 input2 : gmap string value) (clock : nat -> Z) (st1 st2 : State) :
  model_ids input1 = model_ids input2 ->
  clockReads st1 = clockReads st2 ->
  data_of (fst (convertAnthropicModelsToOpenAI h1 input1 clock st1))
  = data_of (fst (convertAnthropicModelsToOpenAI h2 input2 clock st2)).
Proof.
  intros Hids Hclock. rewrite !data_of_convert. now rewrite Hids, Hclock.
Qed.

(** The answer of the examples and one that holds only the two ids. *)
Lemma convert_depends_on_ids_only_witness :
  data_of (fst (convertAnthropicModelsToOpenAI example_handler example_answer
                  example_clock initial_state))
  = data_of (fst (convertAnthropicModelsToOpenAI failing_handler
                    {[ "data" := VSlice (Some [
                         VMap {[ "id" := VString "claude-a" ]};
                         VMap {[ "id" := VString "claude-b";
                                 "display_name" := VString "B" ]} ]) ]}
                    example_clock initial_state)).
Proof.
  apply convert_depends_on_ids_only; vm_compute; reflexivity.
Defined.

(** X11. The map the converter returns has the two keys ["object"] and
    ["data"] and no other; its ["data"] is the nil slice exactly when the
    input has a ["data"] array none of whose elements is a model (with no
    ["data"] array it is the empty, non-nil slice); and it never has more
    entries than the input's array has elements. *)
Theorem convert_keys_and_nil_data (h : ModelsHandler)
    (input : gmap string value) (clock : nat -> Z) (st : State) :
  let out := fst (convertAnthropicModelsToOpenAI h input clock st) in
  dom out = ({[ "object"; "data" ]} : gset string) /\
  (out !! "data" = Some (VSlice None)
     <-> (exists xs, input !! "data" = Some (VSlice xs)) /\ model_ids input = []) /\
  ((forall xs, input !! "data" <> Some (VSlice xs)) ->
     out !! "data" = Some (VSlice (Some []))) /\
  (length (data_of out) <= length (data_of input))%nat.
Proof.
  intros out. subst out.
  split; [| split; [| split]].
  - rewrite convert_run. cbn [fst].
    destruct (input !! "data") as [[| b | n | bits | s | xs | m] |];
      vm_compute; reflexivity.
  - rewrite convert_run. cbn [fst].
    destruct (input !! "data") as [[| b | n | bits | s | xs | m] |] eqn:Hdata;
      try (split; [vm_compute; discriminate
                  | intros [[xs Hxs] _]; discriminate]).
    rewrite lookup_insert_eq. split.
    + intros Hnil. split; [now exists xs |].
      destruct (model_ids input); [reflexivity | discriminate].
    + intros [_ ->]. reflexivity.
  - intros Hnone. rewrite convert_run. cbn [fst].
    destruct (input !! "data") as [[| b | n | bits | s | xs | m] |] eqn:Hdata;
      try reflexivity.
    now destruct (Hnone xs).
  - rewrite data_of_convert, stamped_length. apply omap_entry_id_length.
Qed.

(** An input whose ["data"] is a string, and one whose ["data"] array
    holds no model. *)
Lemma convert_keys_and_nil_data_witness :
  fst (convertAnthropicModelsToOpenAI example_handler
         {[ "data" := VString "none" ]} example_clock initial_state) !! "data"
  = Some (VSlice (Some [])) /\
  fst (convertAnthropicModelsToOpenAI example_handler
         {[ "data" := VSlice (Some [VString "claude-x"]) ]}
         example_clock initial_state) !! "data"
  = Some (VSlice None).
Proof.
  split.
  - apply (proj1 (proj2 (proj2 (convert_keys_and_nil_data example_handler
                                  {[ "data" := VString "none" ]}
                                  example_clock initial_state)))).
    intros xs. vm_compute. discriminate.
  - apply (proj2 (proj1 (proj2 (convert_keys_and_nil_data example_handler
                                  {[ "data" := VSlice (Some [VString "claude-x"]) ]}
                                  example_clock initial_state)))).
    split; [eexists; vm_compute; reflexivity | vm_compute; reflexivity].
Defined.

(** ** Fetching from the upstream, in full *)

(** The converter's result depends on the state only through the number
    of clock readings. *)
Lemma convert_fst_clockReads (h : ModelsHandler) (input : gmap string value)
    (clock : nat -> Z) (st1 st2 : State) :
  clockReads st1 = clockReads st2 ->
  fst (convertAnthropicModelsToOpenAI h input clock st1)
  = fst (convertAnthropicModelsToOpenAI h input clock st2).
Proof.
  intros Hclock. rewrite !convert_run. cbn [fst]. now rewrite Hclock.
Qed.

Section FetchRun.

Variable url_error : string -> option error.
Variable json_Unmarshal : string -> result (gmap string value).

(** Every path of [fetchModelsFromAnthropic]: the result and whether the
    clock was read. *)
Lemma fetch_run (h : ModelsHandler) (clock : nat -> Z) (st : State) :
  let r := fetchModelsFromAnthropic url_error json_Unmarshal h clock st in
  match GetAccessToken (tokenProvider h) with
  | Err e =>
      fst r = Err ("failed to get access token: " +:+ e) /\
      clockReads (snd r) = clockReads st
  | Ok accessToken =>
      match url_error (upstreamURL h +:+ "/v1/models") with
      | Some e =>
          fst r = Err ("failed to create request: " +:+ e) /\
          clockReads (snd r) = clockReads st
      | None =>
          match Do (httpClient h) (upstream_request h accessToken) with
          | Err e =>
              fst r = Err ("failed to make request: " +:+ e) /\
              clockReads (snd r) = clockReads st
          | Ok resp =>
              if StatusCode resp =? 200 then
                match Body resp with
                | Err e =>
                    fst r = Err ("failed to read response: " +:+ e) /\
                    clockReads (snd r) = clockReads st
                | Ok body =>
                    match json_Unmarshal body with
                    | Err e =>
                        fst r = Err ("failed to parse response: " +:+ e) /\
                        clockReads (snd r) = clockReads st
                    | Ok parsed =>
                        fst r = Ok (fst (convertAnthropicModelsToOpenAI
                                           h parsed clock st)) /\
                        clockReads (snd r)
                        = (clockReads st + 2 * length (model_ids parsed))%nat
                    end
                end
              else
                fst r = Err ("API returned status " +:+ itoa (StatusCode resp)) /\
                clockReads (snd r) = clockReads st
          end
      end
  end.
Proof.
  intros r. subst r.
  remember (fetchModelsFromAnthropic url_error json_Unmarshal h clock st)
    as r eqn:Hr.
  unfold fetchModelsFromAnthropic, call_GetAccessToken, call_Do, NewRequest
    in Hr.
  unfold bind at 1 2 in Hr. unfold emit at 1 in Hr. unfold ret at 1 in Hr.
  destruct (GetAccessToken (tokenProvider h)) as [accessToken | e];
    [| subst r; split; reflexivity].
  destruct (url_error (upstreamURL h +:+ "/v1/models")) as [e |];
    [subst r; split; reflexivity |].
  rewrite built_request in Hr.
  unfold bind at 1 2 in Hr. unfold emit at 1 in Hr. unfold ret at 1 in Hr.
  cbn [trace clockReads] in Hr.
  destruct (Do (httpClient h) (upstream_request h accessToken)) as [resp | e];
    [| subst r; split; reflexivity].
  unfold StatusOK in Hr.
  destruct (StatusCode resp =? 200); cbn [negb] in Hr;
    [| subst r; split; reflexivity].
  destruct (Body resp) as [body | e]; [| subst r; split; reflexivity].
  destruct (json_Unmarshal body) as [parsed | e];
    [| subst r; split; reflexivity].
  unfold bind in Hr.
  match type of Hr with
  | context [convertAnthropicModelsToOpenAI h parsed clock ?s] =>
      pose proof (convert_run h parsed clock s) as Hrun;
      pose proof (convert_fst_clockReads h parsed clock s st eq_refl) as Hsame;
      destruct (convertAnthropicModelsToOpenAI h parsed clock s)
        as [converted st1]
  end.
  subst r. cbn [fst snd ret] in *. injection Hrun as _ ->.
  split; [now rewrite Hsame | reflexivity].
Qed.

End FetchRun.

(** X12. [fetchModelsFromAnthropic] succeeds exactly when every step does:
    the token provider returns a token, the URL is accepted, the upstream
    answers the request built with that token, the status is 200, the body
    can be read and parses; the result is then the parsed body converted. *)
Theorem fetch_succeeds_iff
    (url_error : string -> option error)
    (json_Unmarshal : string -> result (gmap string value))
    (h : ModelsHandler) (clock : nat -> Z) (st : State)
    (out : gmap string value) :
  fst (fetchModelsFromAnthropic url_error json_Unmarshal h clock st) = Ok out
  <->
  exists (accessToken : string) (resp : Response) (body : string)
         (parsed : gmap string value),
    GetAccessToken (tokenProvider h) = Ok accessToken /\
    url_error (upstreamURL h +:+ "/v1/models") = None /\
    Do (httpClient h) (upstream_request h accessToken) = Ok resp /\
    StatusCode resp = 200 /\
    Body resp = Ok body /\
    json_Unmarshal body = Ok parsed /\
    out = fst (convertAnthropicModelsToOpenAI h parsed clock st).
Proof.
  pose proof (fetch_run url_error json_Unmarshal h clock st) as Hrun.
  cbv zeta in Hrun. split.
  - intros Hok. rewrite Hok in Hrun.
    destruct (GetAccessToken (tokenProvider h)) as [accessToken | e];
      [| now destruct Hrun].
    destruct (url_error (upstreamURL h +:+ "/v1/models")) as [e |];
      [now destruct Hrun |].
    destruct (Do (httpClient h) (upstream_request h accessToken))
      as [resp | e] eqn:Hdo; [| now destruct Hrun].
    destruct (Z.eqb_spec (StatusCode resp) 200) as [Hcode | _];
      [| now destruct Hrun].
    destruct (Body resp) as [body | e] eqn:Hbody; [| now destruct Hrun].
    destruct (json_Unmarshal body) as [parsed | e] eqn:Hparsed;
      [| now destruct Hrun].
    destruct Hrun as [[= ->] _].
    exists accessToken, resp, body, parsed.
    repeat split; first [assumption | reflexivity].
  - intros (accessToken & resp & body & parsed
            & Htok & Hurl & Hdo & Hcode & Hbody & Hparsed & ->).
    rewrite Htok, Hurl, Hdo, Hcode, Hbody, Hparsed in Hrun.
    exact (proj1 Hrun).
Qed.

(** X13. When [fetchModelsFromAnthropic] fails, the error names the first
    step that failed and wraps its cause (or gives the status code), the
    later steps are not taken (no upstream request after a failure of the
    token provider or of the URL, no body read after a status other than
    200), and the clock has not been read. *)
Theorem fetch_failure_names_first_failed_step
    (url_error : string -> option error)
    (json_Unmarshal : string -> result (gmap string value))
    (h : ModelsHandler) (clock : nat -> Z) (st : State) (msg : error) :
  let r := fetchModelsFromAnthropic url_error json_Unmarshal h clock st in
  let events := new_events (fetchModelsFromAnthropic url_error json_Unmarshal h)
                  clock st in
  fst r = Err msg ->
  clockReads (snd r) = clockReads st /\
  ((exists e, GetAccessToken (tokenProvider h) = Err e /\
              msg = "failed to get access token: " +:+ e /\
              events = [EvGetAccessToken]) \/
   (exists accessToken,
      GetAccessToken (tokenProvider h) = Ok accessToken /\
      ((exists e, url_error (upstreamURL h +:+ "/v1/models") = Some e /\
                  msg = "failed to create request: " +:+ e /\
                  events = [EvGetAccessToken]) \/
       (events = [EvGetAccessToken; EvDo (upstream_request h accessToken)] /\
        ((exists e,
            Do (httpClient h) (upstream_request h accessToken) = Err e /\
            msg = "failed to make request: " +:+ e) \/
         (exists resp,
            Do (httpClient h) (upstream_request h accessToken) = Ok resp /\
            ((StatusCode resp <> 200 /\
              msg = "API returned status " +:+ itoa (StatusCode resp)) \/
             (StatusCode resp = 200 /\
              ((exists e, Body resp = Err e /\
                          msg = "failed to read response: " +:+ e) \/
               (exists body e,
                  Body resp = Ok body /\ json_Unmarshal body = Err e /\
                  msg = "failed to parse response: " +:+ e)))))))))).
Proof.
  intros r events Hfail. subst r events.
  pose proof (fetch_run url_error json_Unmarshal h clock st) as Hrun.
  pose proof (fetch_events url_error json_Unmarshal h clock st) as Hev.
  cbv zeta in Hrun. rewrite Hfail in Hrun.
  destruct (GetAccessToken (tokenProvider h)) as [accessToken | e].
  2: { destruct Hrun as [[= ->] Hclock]. split; [exact Hclock |].
       left. exists e. repeat split. exact Hev. }
  destruct (url_error (upstreamURL h +:+ "/v1/models")) as [e |].
  1: { destruct Hrun as [[= ->] Hclock]. split; [exact Hclock |].
       right. exists accessToken. split; [reflexivity |].
       left. exists e. repeat split. exact Hev. }
  destruct (Do (httpClient h) (upstream_request h accessToken))
    as [resp | e] eqn:Hdo.
  2: { destruct Hrun as [[= ->] Hclock]. split; [exact Hclock |].
       right. exists accessToken. split; [reflexivity |].
       right. split; [exact Hev |].
       left. exists e. split; [exact Hdo | reflexivity]. }
  destruct (Z.eqb_spec (StatusCode resp) 200) as [Hcode | Hcode].
  2: { destruct Hrun as [[= ->] Hclock]. split; [exact Hclock |].
       right. exists accessToken. split; [reflexivity |].
       right. split; [exact Hev |]. right. exists resp.
       split; [exact Hdo |]. left. split; [exact Hcode | reflexivity]. }
  destruct (Body resp) as [body | e] eqn:Hbody.
  2: { destruct Hrun as [[= ->] Hclock]. split; [exact Hclock |].
       right. exists accessToken. split; [reflexivity |].
       right. split; [exact Hev |]. right. exists resp.
       split; [exact Hdo |]. right. split; [exact Hcode |].
       left. exists e. split; [exact Hbody | reflexivity]. }
  destruct (json_Unmarshal body) as [parsed | e] eqn:Hparsed.
  1: { destruct Hrun as [Hok _]. discriminate. }
  destruct Hrun as [[= ->] Hclock]. split; [exact Hclock |].
  right. exists accessToken. split; [reflexivity |].
  right. split; [exact Hev |]. right. exists resp.
  split; [exact Hdo |]. right. split; [exact Hcode |].
  right. exists body, e. repeat split; assumption.
Qed.

(** An upstream that answers 200 with a body that parses to the answer of
    the examples. *)
Lemma fetch_succeeds_iff_witness :
  fst (fetchModelsFromAnthropic (fun _ => None) (fun _ => Ok example_answer)
         (answering_handler 200 "{}") example_clock initial_state)
  = Ok (fst (convertAnthropicModelsToOpenAI (answering_handler 200 "{}")
               example_answer example_clock initial_state)).
Proof.
  apply (proj2 (fetch_succeeds_iff (fun _ => None) (fun _ => Ok example_answer)
                  (answering_handler 200 "{}") example_clock initial_state _)).
  exists "tok", {| StatusCode := 200; Body := Ok "{}" |}, "{}", example_answer.
  repeat split.
Defined.

(** An upstream that answers 404: the error gives the code, and the body
    is not looked at. *)
Lemma fetch_failure_names_first_failed_step_witness :
  fst (fetchModelsFromAnthropic (fun _ => None) (fun _ => Ok example_answer)
         (answering_handler 404 "{}") example_clock initial_state)
  = Err "API returned status 404" /\
  clockReads
    (snd (fetchModelsFromAnthropic (fun _ => None) (fun _ => Ok example_answer)
            (answering_handler 404 "{}") example_clock initial_state))
  = clockReads initial_state.
Proof.
  assert (Hfail :
    fst (fetchModelsFromAnthropic (fun _ => None) (fun _ => Ok example_answer)
           (answering_handler 404 "{}") example_clock initial_state)
    = Err "API returned status 404") by (vm_compute; reflexivity).
  split; [exact Hfail |].
  exact (proj1 (fetch_failure_names_first_failed_step
                  (fun _ => None) (fun _ => Ok example_answer)
                  (answering_handler 404 "{}") example_clock initial_state
                  "API returned status 404" Hfail)).
Defined.

(** ** More on [setCORSHeadersStandalone] *)

(** One step of comparing two chains of [insert]s at a key [k]. *)
Ltac peel_insert :=
  match goal with
  | |- <[?i := _]> _ !! ?k = _ =>
      destruct (decide (i = k)) as [<- | ?];
      [ rewrite !lookup_insert_eq; reflexivity
      | rewrite !(lookup_insert_ne _ i k) by assumption ]
  end.

(** The header map after [setCORSHeadersStandalone]: five [insert]s. *)
Lemma cors_header_map (w : ResponseWriter) (r : Request) :
  rw_header (setCORSHeadersStandalone w r)
  = <["Access-Control-Max-Age" := ["3600"]]>
      (<["Access-Control-Allow-Credentials" := ["true"]]>
         (<["Access-Control-Allow-Headers" :=
              ["Content-Type, Authorization, X-Requested-With"]]>
            (<["Access-Control-Allow-Methods" :=
                 ["GET, POST, PUT, DELETE, OPTIONS"]]>
               (<["Access-Control-Allow-Origin" :=
                    [if String.eqb (Header_Get (Header r) "Origin") EmptyString
                     then "*" else Header_Get (Header r) "Origin"]]>
                  (rw_header w))))).
Proof. reflexivity. Qed.

(** X14. [setCORSHeadersStandalone] overwrites: applied for a request [r2]
    to a writer it was already applied to for [r1], it leaves the writer
    it would leave from the start for [r2]. In particular it is
    idempotent. *)
Theorem cors_last_request_wins (w : ResponseWriter) (r1 r2 : Request) :
  setCORSHeadersStandalone (setCORSHeadersStandalone w r1) r2
  = setCORSHeadersStandalone w r2 /\
  setCORSHeadersStandalone (setCORSHeadersStandalone w r1) r1
  = setCORSHeadersStandalone w r1.
Proof.
  assert (Hwins : forall ra rb,
             setCORSHeadersStandalone (setCORSHeadersStandalone w ra) rb
             = setCORSHeadersStandalone w rb).
  { intros ra rb.
    assert (Hhdr : rw_header (setCORSHeadersStandalone
                                (setCORSHeadersStandalone w ra) rb)
                   = rw_header (setCORSHeadersStandalone w rb)).
    { rewrite !cors_header_map. apply map_eq. intros k.
      do 5 peel_insert. now rewrite !lookup_insert_ne by assumption. }
    destruct (setCORSHeadersStandalone (setCORSHeadersStandalone w ra) rb)
      as [hdr1 sent1 body1] eqn:H1.
    destruct (setCORSHeadersStandalone w rb) as [hdr2 sent2 body2] eqn:H2.
    cbn [rw_header] in Hhdr. subst hdr2.
    assert (Hs : sent1 = sent2).
    { change sent1 with (rw_sent {| rw_header := hdr1; rw_sent := sent1;
                                    rw_body := body1 |}).
      rewrite <- H1.
      change sent2 with (rw_sent {| rw_header := hdr1; rw_sent := sent2;
                                    rw_body := body2 |}).
      rewrite <- H2. reflexivity. }
    assert (Hb : body1 = body2).
    { change body1 with (rw_body {| rw_header := hdr1; rw_sent := sent1;
                                    rw_body := body1 |}).
      rewrite <- H1.
      change body2 with (rw_body {| rw_header := hdr1; rw_sent := sent2;
                                    rw_body := body2 |}).
      rewrite <- H2. reflexivity. }
    now subst. }
  split; apply Hwins.
Qed.

(** X15. [setCORSHeadersStandalone] touches the five CORS names and
    nothing else: every other entry of the header map is as it was, the
    map has the old names and the five, and the status and the body are
    not written. *)
Theorem cors_touches_only_its_names (w : ResponseWriter) (r : Request)
    (k : string) :
  (~ In k cors_names ->
     rw_header (setCORSHeadersStandalone w r) !! k = rw_header w !! k) /\
  dom (rw_header (setCORSHeadersStandalone w r))
  = dom (rw_header w) ∪ list_to_set cors_names /\
  rw_sent (setCORSHeadersStandalone w r) = rw_sent w /\
  rw_body (setCORSHeadersStandalone w r) = rw_body w.
Proof.
  split; [| split; [| split; reflexivity]].
  - intros Hk. rewrite cors_header_map.
    rewrite !lookup_insert_ne; [reflexivity | ..];
      intros <-; apply Hk; cbn; tauto.
  - rewrite cors_header_map, !dom_insert_L. cbn [cors_names list_to_set].
    apply set_eq. intros x.
    rewrite !elem_of_union, !elem_of_singleton. rewrite elem_of_empty. tauto.
Qed.

Lemma cors_touches_only_its_names_witness :
  rw_header
    (setCORSHeadersStandalone
       {| rw_header := {[ "X-Request-Id" := ["42"] ]}; rw_sent := None;
          rw_body := [] |}
       example_get) !! "X-Request-Id"
  = Some ["42"].
Proof.
  rewrite (proj1 (cors_touches_only_its_names _ example_get "X-Request-Id")).
  - reflexivity.
  - cbn. intros [E | [E | [E | [E | [E | []]]]]]; discriminate.
Defined.

(** X16. The origin [setCORSHeadersStandalone] allows is never the empty
    string: it is ["*"] when the first [Origin] value of the request is
    empty (also when the header is there without a value, or with an
    empty first value), and that first value otherwise, whatever it is;
    and credentials are allowed in every case. *)
Theorem cors_allowed_origin_never_empty (w : ResponseWriter) (r : Request) :
  let allowed :=
    Header_Get (rw_header (setCORSHeadersStandalone w r))
      "Access-Control-Allow-Origin" in
  allowed <> EmptyString /\
  (Header_Get (Header r) "Origin" = EmptyString -> allowed = "*") /\
  (Header r !! "Origin" = Some [] -> allowed = "*") /\
  (forall rest, Header r !! "Origin" = Some (EmptyString :: rest) ->
                allowed = "*") /\
  (forall o rest, o <> EmptyString ->
                  Header r !! "Origin" = Some (o :: rest) -> allowed = o) /\
  Header_Get (rw_header (setCORSHeadersStandalone w r))
    "Access-Control-Allow-Credentials" = "true".
Proof.
  intros allowed. subst allowed.
  rewrite cors_allow_origin, cors_allow_credentials.
  assert (Hget : forall vs, Header r !! "Origin" = Some vs ->
                   Header_Get (Header r) "Origin"
                   = match vs with v :: _ => v | [] => EmptyString end).
  { intros vs Hvs. unfold Header_Get.
    rewrite (proj1 canonical_names), Hvs. now destruct vs. }
  repeat split.
  - destruct (String.eqb_spec (Header_Get (Header r) "Origin") EmptyString);
      [discriminate | assumption].
  - now intros ->.
  - intros Hvs. now rewrite (Hget _ Hvs).
  - intros rest Hvs. now rewrite (Hget _ Hvs).
  - intros o rest Hne Hvs. rewrite (Hget _ Hvs).
    destruct (String.eqb_spec o EmptyString); [contradiction | reflexivity].
Qed.

(** An [Origin] header whose first value is empty, and one with two
    values. *)
Lemma cors_allowed_origin_never_empty_witness :
  Header_Get
    (rw_header
       (setCORSHeadersStandalone NewResponseWriter
          {| Method := "GET"; URL := "/v1/models";
             Header := {[ "Origin" := [EmptyString; "https://app.example"] ]} |}))
    "Access-Control-Allow-Origin" = "*" /\
  Header_Get
    (rw_header
       (setCORSHeadersStandalone NewResponseWriter
          {| Method := "GET"; URL := "/v1/models";
             Header := {[ "Origin" := ["https://a.example"; "https://b.example"] ]} |}))
    "Access-Control-Allow-Origin" = "https://a.example".
Proof.
  split.
  - apply (proj1 (proj2 (proj2 (proj2 (cors_allowed_origin_never_empty
             NewResponseWriter
             {| Method := "GET"; URL := "/v1/models";
                Header := {[ "Origin" := [EmptyString; "https://app.example"] ]} |}))))
           ["https://app.example"]).
    reflexivity.
  - apply (proj1 (proj2 (proj2 (proj2 (proj2 (cors_allowed_origin_never_empty
             NewResponseWriter
             {| Method := "GET"; URL := "/v1/models";
                Header := {[ "Origin" := ["https://a.example"; "https://b.example"] ]} |})))))
           "https://a.example" ["https://b.example"]).
    + discriminate.
    + reflexivity.
Defined.

(** X17. [ServeHTTP] looks at two things in a request: whether its method
    is [OPTIONS], and the first value of its [Origin] header. Two requests
    that agree on both get the same response, from any two handlers, with
    the same effects: the path, the other headers and the method itself
    (GET, POST, DELETE, ...) make no difference. *)
Theorem ServeHTTP_reads_method_and_origin_only (h1 h2 : ModelsHandler)
    (w : ResponseWriter) (r1 r2 : Request) (clock : nat -> Z) (st : State) :
  String.eqb (Method r1) "OPTIONS" = String.eqb (Method r2) "OPTIONS" ->
  Header_Get (Header r1) "Origin" = Header_Get (Header r2) "Origin" ->
  ServeHTTP h1 w r1 clock st = ServeHTTP h2 w r2 clock st.
Proof.
  intros Hmethod Horigin.
  assert (Hcors : setCORSHeadersStandalone w r1 = setCORSHeadersStandalone w r2).
  { unfold setCORSHeadersStandalone. now rewrite Horigin. }
  destruct (String.eqb_spec (Method r2) "OPTIONS") as [H2 | H2].
  - apply String.eqb_eq in Hmethod.
    rewrite !ServeHTTP_options by assumption. now rewrite Hcors.
  - apply String.eqb_neq in Hmethod.
    rewrite !ServeHTTP_listing by assumption. rewrite Hcors.
    rewrite (getOAuthModels_depends_on_clock_only h1 h2 clock st st eq_refl).
    now rewrite !getOAuthModels_state.
Qed.

(** A GET of [/v1/models] and a DELETE of another path from the same
    origin. *)
Lemma ServeHTTP_reads_method_and_origin_only_witness :
  ServeHTTP example_handler NewResponseWriter example_get
    example_clock initial_state
  = ServeHTTP failing_handler NewResponseWriter
      {| Method := "DELETE"; URL := "/v1/messages";
         Header := {[ "Origin" := ["https://app.example"; "https://other"];
                      "X-Api-Key" := ["k"] ]} |}
      example_clock initial_state.
Proof.
  apply ServeHTTP_reads_method_and_origin_only; vm_compute; reflexivity.
Defined.
